(** * transfer_learning.py: a two-phase fine-tuning script, and its specification

    The script builds an InceptionV3 backbone with a new two-class head,
    trains the head, unfreezes the top of the backbone, trains again and
    saves the model.  Everything it does is a call into Keras, meeshkan,
    the file system or the clock, so the embedding is a program in a
    reader/state/error monad: the reader is the outside world (what every
    foreign call answers, given the history so far), the state holds the
    layer objects and the history of foreign calls, and the error is a
    Python exception in flight. *)

From stdpp Require Import gmap strings list.
From Stdlib Require Import ZArith DecimalString.
From Stdlib Require DecimalZ DecimalFacts.
From Stdlib Require Import Floats.PrimFloat Floats.SpecFloat Floats.FloatOps.

Set Default Proof Using "Type".
#[local] Set Warnings "-inexact-float".
Local Open Scope string_scope.
Local Open Scope Z_scope.

(** ** Python values, exceptions and the builtins the script uses *)

Module Py.

(** The exception classes that matter here.  Everything derives from
    BaseException; [KeyboardInterrupt], [SystemExit] and [GeneratorExit]
    are the three builtin classes that do not derive from Exception. *)
Inductive exc : Type :=
  | KeyError (key : string)
  | TypeError
  | ValueError
  | OverflowError
  | ZeroDivisionError
  | OSError
  | MemoryError
  | RuntimeError
  | KeyboardInterrupt
  | SystemExit
  | GeneratorExit.

(** [isinstance(e, Exception)] *)
Definition isinstance_Exception (e : exc) : bool :=
  match e with
  | KeyboardInterrupt | SystemExit | GeneratorExit => false
  | _ => true
  end.

(** A value stored in a logs dictionary.  [VOther r] is any other object,
    described by what [float()] does when applied to it. *)
Inductive pyval : Type :=
  | VNone
  | VBool (b : bool)
  | VInt (z : Z)
  | VFloat (f : float)
  | VOther (r : exc + float).

(** An object passed to [print] or to the reporting sink. *)
Inductive pyobj : Type :=
  | OStr (s : string)
  | OInt (z : Z)
  | OFloat (f : float)
  | OExc (e : exc)
  | OList (l : list float).

(** [float(v)]: ints are rounded to the nearest double (ties to even) and
    overflow past the largest double. *)
Definition float_of_int (z : Z) : exc + float :=
  let f := SF2Prim (binary_normalize prec emax z 0 false) in
  if is_infinity f then inl OverflowError else inr f.

Definition py_float (v : pyval) : exc + float :=
  match v with
  | VNone => inl TypeError
  | VBool b => inr (if b then 1%float else 0%float)
  | VInt z => float_of_int z
  | VFloat f => inr f
  | VOther r => r
  end.

(** [int(f)]: truncation toward zero. *)
Definition py_int (f : float) : exc + Z :=
  match Prim2SF f with
  | S754_zero _ => inr 0
  | S754_infinity _ => inl OverflowError
  | S754_nan => inl ValueError
  | S754_finite s m e =>
      let mag := Z.shiftl (Z.pos m) e in
      inr (if s then - mag else mag)
  end.

(** [logs[key]] on a dict *)
Definition getitem (logs : gmap string pyval) (key : string) : exc + pyval :=
  match logs !! key with
  | Some v => inr v
  | None => inl (KeyError key)
  end.

(** ['%d' % z] *)
Definition str_of_int (z : Z) : string :=
  NilZero.string_of_int (Z.to_int z).

(** ['{:02d}'.format(z)]: zero padding to width two. *)
Definition pad2 (z : Z) : string :=
  if bool_decide (0 <= z < 10) then "0" +:+ str_of_int z else str_of_int z.

(** Replace every occurrence of [field] in [tmpl] by [val]; [skip] counts
    the characters of an occurrence still to drop. *)
Fixpoint substitute_from (skip : nat) (field tmpl val : string) : string :=
  match tmpl with
  | EmptyString => EmptyString
  | String c rest =>
      match skip with
      | S k => substitute_from k field rest val
      | O =>
          if String.prefix field tmpl
          then val +:+ substitute_from (String.length field - 1) field rest val
          else String c (substitute_from 0 field rest val)
      end
  end.

(** [tmpl.format(epoch=e)] for a template whose replacement fields are
    all [{epoch:02d}]. *)
Definition format_epoch (tmpl : string) (epoch : Z) : string :=
  substitute_from 0 "{epoch:02d}" tmpl (pad2 epoch).

(** [tmpl % (z,)] for a template whose one conversion is [%d]. *)
Definition percent_d (tmpl : string) (z : Z) : string :=
  substitute_from 0 "%d" tmpl (str_of_int z).

(** [n // d] and [n % d] on ints: floor division and its remainder. *)
Definition floordiv (n d : Z) : exc + Z :=
  if decide (d = 0) then inl ZeroDivisionError else inr (n / d).

Definition modulo (n d : Z) : exc + Z :=
  if decide (d = 0) then inl ZeroDivisionError else inr (n mod d).

End Py.

(** ** The run-time: layer objects, foreign calls, the outside world *)

Module Keras.

(** A layer object.  Backbone layers are known by the name the framework
    gave them; the head layers by their constructor arguments.
    [trainable] is the attribute the script assigns. *)
Inductive layer_kind : Type :=
  | Backbone (name : string)
  | GlobalAveragePooling2D
  | Dense (units : Z) (activation : string).

Record layer : Type := Layer { kind : layer_kind; trainable : bool }.

Definition layer_name (l : layer) : string :=
  match kind l with
  | Backbone name => name
  | GlobalAveragePooling2D => "global_average_pooling2d"
  | Dense _ _ => "dense"
  end.

(** A symbolic tensor: the layers it is computed through, input layer
    first, as references into the heap of layer objects. *)
Record tensor : Type := Tensor { t_layers : list nat }.

(** A model shares its layer objects with whatever built them: it holds
    references, not copies. *)
Record model : Type := MkModel { m_input : tensor; m_output : tensor }.

(** [Model(inputs=..., outputs=...)] *)
Definition Model (inputs outputs : tensor) : model := MkModel inputs outputs.

Definition m_layers (m : model) : list nat := t_layers (m_output m).

Inductive optimizer : Type :=
  | OptimizerName (name : string)
  | SGD (lr momentum : float).

(** The directory iterator [flow_from_directory] returns: [n] images
    found, served in batches of [batch_size]. *)
Record generator : Type :=
  Generator { g_directory : string; g_n : Z; g_batch_size : Z }.

Inductive event : Type :=
  | EInceptionV3 (weights : string) (include_top : bool) (r : Py.exc + list string)
  | ECompile (opt : optimizer) (loss : string) (metrics : list string)
             (flags : list bool) (r : option Py.exc)
  | EFlow (directory : string) (target_size : Z * Z) (color_mode : string)
          (batch_size : Z) (class_mode : string) (shuffle : bool) (r : Py.exc + Z)
  | EFit (g : generator) (steps_per_epoch : Z) (epochs : nat) (r : option Py.exc)
  | EBatch (r : Py.exc + gmap string Py.pyval)
  | ESave (path : string) (r : option Py.exc)
  | EEvaluate (g : generator) (steps : Z) (r : Py.exc + float * float)
  | EReport (args : list Py.pyobj) (r : option Py.exc)
  | ETime (t : float)
  | EPrint (args : list Py.pyobj) (r : option Py.exc).

(** The outside world: what each foreign call answers, as a function of
    the history of foreign calls made so far (oldest first) and of the
    arguments.  [None] and [inr] are normal returns, [Some e] and [inl e]
    are the call raising [e]. *)
Record world : Type := World {
  w_InceptionV3 : list event -> Py.exc + list string;
  w_compile : list event -> option Py.exc;
  w_flow_from_directory : list event -> string -> Py.exc + Z;
  w_fit : list event -> option Py.exc;
  w_batch : list event -> Py.exc + gmap string Py.pyval;
  w_save : list event -> string -> option Py.exc;
  w_evaluate_generator : list event -> Py.exc + float * float;
  w_report_scalar : list event -> list Py.pyobj -> option Py.exc;
  w_time : list event -> float;
  w_print : list event -> list Py.pyobj -> option Py.exc }.

Record state : Type := State { heap : list layer; log : list event }.

Inductive result (A : Type) : Type :=
  | Ok (a : A)
  | Raise (e : Py.exc).
Global Arguments Ok {A} a.
Global Arguments Raise {A} e.

(** Programs: read the world, thread the state, return or raise. *)
Definition M (A : Type) : Type := world -> state -> result A * state.

Definition ret {A} (a : A) : M A := fun _ s => (Ok a, s).

Definition raise {A} (e : Py.exc) : M A := fun _ s => (Raise e, s).

Definition bind {A B} (m : M A) (k : A -> M B) : M B :=
  fun w s =>
    match m w s with
    | (Ok a, s') => k a w s'
    | (Raise e, s') => (Raise e, s')
    end.

(** A builtin that returns or raises. *)
Definition lift {A} (r : Py.exc + A) : M A :=
  match r with
  | inl e => raise e
  | inr a => ret a
  end.

Definition lift_unit (r : option Py.exc) : M unit :=
  match r with
  | Some e => raise e
  | None => ret tt
  end.

(** Append a foreign call to the history. *)
Definition record (ev : event) (s : state) : state :=
  State (heap s) (log s ++ [ev])%list.

(** [try: body / except Exception as e: handler e].  An exception that is
    not an instance of Exception passes through. *)
Definition try_except_Exception {A} (body : M A) (handler : Py.exc -> M A) : M A :=
  fun w s =>
    match body w s with
    | (Ok a, s') => (Ok a, s')
    | (Raise e, s') =>
        if Py.isinstance_Exception e then handler e w s' else (Raise e, s')
    end.

End Keras.

Import Keras.

Declare Scope prog_scope.
Delimit Scope prog_scope with prog.
Notation "x <- m ;; k" := (bind m (fun x => k))
  (at level 100, m at next level, right associativity) : prog_scope.
Notation "m ;; k" := (bind m (fun _ => k))
  (at level 100, right associativity) : prog_scope.
Local Open Scope prog_scope.

(** [for x in xs: body x] *)
Fixpoint for_each {A} (xs : list A) (body : A -> M unit) : M unit :=
  match xs with
  | [] => ret tt
  | x :: xs' => body x ;; for_each xs' body
  end.

(** *** Foreign calls: ask the world, record the call and its outcome *)

Definition foreign {A} (ask : world -> list event -> Py.exc + A)
    (ev : Py.exc + A -> event) : M A :=
  fun w s => let r := ask w (log s) in lift r w (record (ev r) s).

Definition foreign_unit (ask : world -> list event -> option Py.exc)
    (ev : option Py.exc -> event) : M unit :=
  fun w s => let r := ask w (log s) in lift_unit r w (record (ev r) s).

(** Create layer objects, trainable by default; the references to them. *)
Definition alloc (kinds : list layer_kind) : M (list nat) :=
  fun _ s =>
    (Ok (seq (length (heap s)) (length kinds)),
     State (heap s ++ map (fun k => Layer k true) kinds)%list (log s)).

(** [InceptionV3(weights=..., include_top=...)]: the world names the
    layers of the backbone, input layer first. *)
Definition InceptionV3 (weights : string) (include_top : bool) : M model :=
  names <- foreign w_InceptionV3 (EInceptionV3 weights include_top) ;;
  refs <- alloc (map Backbone names) ;;
  ret (MkModel (Tensor (take 1 refs)) (Tensor refs)).

(** [kind(...)(x)]: create a layer object and apply it to the tensor [x]. *)
Definition apply_layer (k : layer_kind) (x : tensor) : M tensor :=
  refs <- alloc [k] ;;
  ret (Tensor (t_layers x ++ refs)%list).

(** [layer.trainable = b] on the object behind a reference *)
Definition set_trainable (b : bool) (ref : nat) : M unit :=
  fun _ s => (Ok tt, State (alter (fun l => Layer (kind l) b) ref (heap s)) (log s)).

(** [layer.name] of the object behind a reference *)
Definition get_name (ref : nat) : M string :=
  fun _ s => (Ok (from_option layer_name "" (heap s !! ref)), s).

(** The trainable attributes of a model's layers, in order. *)
Definition trainable_flags (m : model) (s : state) : list bool :=
  omap (fun ref => trainable <$> heap s !! ref) (m_layers m).

(** [model.compile(...)] reads the trainable attributes as they are at the
    time of the call. *)
Definition compile (m : model) (opt : optimizer) (loss : string)
    (metrics : list string) : M unit :=
  fun w s =>
    foreign_unit w_compile (ECompile opt loss metrics (trainable_flags m s)) w s.

Definition flow_from_directory (directory : string) (target_size : Z * Z)
    (color_mode : string) (batch_size : Z) (class_mode : string)
    (shuffle : bool) : M generator :=
  n <- foreign (fun w h => w_flow_from_directory w h directory)
         (EFlow directory target_size color_mode batch_size class_mode shuffle) ;;
  ret (Generator directory n batch_size).

Definition fit_begin (g : generator) (steps : Z) (epochs : nat) : M unit :=
  foreign_unit w_fit (EFit g steps epochs).

Definition train_batch : M (gmap string Py.pyval) := foreign w_batch EBatch.

Definition save (path : string) : M unit :=
  foreign_unit (fun w h => w_save w h path) (ESave path).

Definition evaluate_generator (g : generator) (steps : Z) : M (float * float) :=
  foreign w_evaluate_generator (EEvaluate g steps).

Definition report_scalar (args : list Py.pyobj) : M unit :=
  foreign_unit (fun w h => w_report_scalar w h args) (EReport args).

Definition time : M float :=
  fun w s => let t := w_time w (log s) in (Ok t, record (ETime t) s).

(** [print(...)] writes to the standard output, and raises when the
    write fails or when an argument cannot be rendered. *)
Definition print (args : list Py.pyobj) : M unit :=
  foreign_unit (fun w h => w_print w h args) (EPrint args).

(** *** The framework's training loop and callbacks

    [fit_generator] runs [epochs] epochs of [steps_per_epoch] batches; it
    calls every callback's [on_batch_end] after each batch and every
    callback's [on_epoch_end] (with the epoch's index, from 0) after each
    epoch, and catches nothing a callback raises. *)

Record callback : Type := Callback {
  cb_on_batch_end : nat -> gmap string Py.pyval -> M unit;
  cb_on_epoch_end : nat -> M unit }.

Definition LambdaCallback (on_batch_end : nat -> gmap string Py.pyval -> M unit)
    : callback :=
  Callback on_batch_end (fun _ => ret tt).

(** [ModelCheckpoint(filepath)] saves the model after every epoch to
    [filepath.format(epoch=epoch + 1)]. *)
Definition ModelCheckpoint (filepath : string) : callback :=
  Callback (fun _ _ => ret tt)
           (fun epoch => save (Py.format_epoch filepath (Z.of_nat epoch + 1))).

Definition run_batch (callbacks : list callback) (batch : nat) : M unit :=
  logs <- train_batch ;;
  for_each callbacks (fun cb => cb_on_batch_end cb batch logs).

Definition run_epoch (steps : Z) (callbacks : list callback) (epoch : nat) : M unit :=
  for_each (seq 0 (Z.to_nat steps)) (run_batch callbacks) ;;
  for_each callbacks (fun cb => cb_on_epoch_end cb epoch).

Definition fit_generator (g : generator) (steps_per_epoch : Z) (epochs : nat)
    (callbacks : list callback) : M unit :=
  fit_begin g steps_per_epoch epochs ;;
  for_each (seq 0 epochs) (run_epoch steps_per_epoch callbacks).

(** ** The script *)

Module Script.
Import Py.

(** Lines 18-33: the backbone, the new head, the model to train. *)
Definition build_model : M (model * model) :=
  base_model <- InceptionV3 "imagenet" false ;;
  let x := m_output base_model in
  x <- apply_layer GlobalAveragePooling2D x ;;
  x <- apply_layer (Dense 1024 "relu") x ;;
  x <- apply_layer (Dense 512 "relu") x ;;
  x <- apply_layer (Dense 32 "relu") x ;;
  predictions <- apply_layer (Dense 2 "softmax") x ;;
  ret (base_model, Model (m_input base_model) predictions).

(** Lines 37-41: freeze the backbone, compile. *)
Definition freeze_backbone (base_model model : Keras.model) : M unit :=
  for_each (m_layers base_model) (set_trainable false) ;;
  compile model (OptimizerName "rmsprop") "categorical_crossentropy"
          ["categorical_accuracy"].

(** Lines 45-50 *)
Definition on_batch_end (batch : nat) (logs : gmap string pyval) : M unit :=
  try_except_Exception
    (loss <- lift (getitem logs "loss") ;;
     loss <- lift (py_float loss) ;;
     report_scalar [OStr "Train loss"; OFloat loss] ;;
     acc <- lift (getitem logs "categorical_accuracy") ;;
     acc <- lift (py_float acc) ;;
     report_scalar [OStr "Train accuracy"; OFloat acc])
    (fun e => print [OExc e]).

Definition meeshkan_callback : callback := LambdaCallback on_batch_end.

(** Lines 56-73 *)
Definition _make_generator (dest_folder : string) : M generator :=
  flow_from_directory dest_folder (229, 229) "rgb" 32 "categorical" true.

Definition make_train_generator : M generator := _make_generator "./train/".

Definition make_test_generator : M generator := _make_generator "./test/".

(** [generator.n // generator.batch_size] *)
Definition step_size (g : generator) : M Z :=
  lift (floordiv (g_n g) (g_batch_size g)).

Definition callbacks : list callback :=
  [meeshkan_callback; ModelCheckpoint "weights.{epoch:02d}.hdf5"].

(** Lines 76-84 *)
Definition train_head : M unit :=
  train_generator <- make_train_generator ;;
  step_size_train <- step_size train_generator ;;
  fit_generator train_generator step_size_train 50 callbacks.

(** Lines 92-93 *)
Definition print_layers (base_model : Keras.model) : M unit :=
  for_each (imap (fun i ref => (i, ref)) (m_layers base_model))
    (fun p => name <- get_name (snd p) ;;
              print [OInt (Z.of_nat (fst p)); OStr name]).

(** Lines 97-105 *)
Definition unfreeze_top (model : Keras.model) : M unit :=
  for_each (take 249 (m_layers model)) (set_trainable false) ;;
  for_each (drop 249 (m_layers model)) (set_trainable true) ;;
  compile model (SGD 0.0001 0.9) "categorical_crossentropy"
          ["categorical_accuracy"].

Definition EPOCHS : nat := 10.
Definition TEST_INTERVAL : Z := 1.

(** Lines 119-128: one turn of the fine-tuning loop. *)
Definition fine_tune_step (train_generator : generator) (step_size_train : Z)
    (test_generator : generator) (step_size_test : Z) (i : nat) : M unit :=
  fit_generator train_generator step_size_train 1 callbacks ;;
  r <- lift (modulo (Z.of_nat i) TEST_INTERVAL) ;;
  if decide (r = 0) then
    res <- evaluate_generator test_generator step_size_test ;;
    let (test_loss, test_accuracy) := res : float * float in
    report_scalar [OStr "Test loss"; OFloat test_loss;
                   OStr "Test accuracy"; OFloat test_accuracy]
  else ret tt.

(** Lines 118-128 *)
Definition fine_tune_loop (train_generator : generator) (step_size_train : Z)
    (test_generator : generator) (step_size_test : Z) : M unit :=
  for_each (seq 0 EPOCHS)
    (fine_tune_step train_generator step_size_train test_generator step_size_test).

(** Line 130 *)
Definition save_model : M unit :=
  t <- time ;;
  ms <- lift (py_int (t * 1000)%float) ;;
  save (percent_d "tmnt_koopa_%d.h5" ms).

(** Lines 132-133 *)
Definition final_test (test_generator : generator) (step_size_test : Z) : M unit :=
  res <- evaluate_generator test_generator step_size_test ;;
  print [OStr "test loss and accuracy"; OList [fst res; snd res]].

(** Lines 109-133 *)
Definition fine_tune : M unit :=
  train_generator <- make_train_generator ;;
  step_size_train <- step_size train_generator ;;
  test_generator <- make_test_generator ;;
  step_size_test <- step_size test_generator ;;
  fine_tune_loop train_generator step_size_train test_generator step_size_test ;;
  save_model ;;
  final_test test_generator step_size_test.

(** The module body, top to bottom. *)
Definition main : M unit :=
  models <- build_model ;;
  let (base_model, model) := models : Keras.model * Keras.model in
  freeze_backbone base_model model ;;
  train_head ;;
  print_layers base_model ;;
  unfreeze_top model ;;
  fine_tune.

Definition initial : state := State [] [].

(** Running the script in a world: how it ends, and the final state. *)
Definition run (w : world) : result unit * state := main w initial.

End Script.

(** ** Reading a history *)

Module Trace.
Import Py.

(** The exception a foreign call raised, if it raised. *)
Definition failed (ev : event) : option exc :=
  match ev with
  | EInceptionV3 _ _ (inl e) => Some e
  | ECompile _ _ _ _ r => r
  | EFlow _ _ _ _ _ _ (inl e) => Some e
  | EFit _ _ _ r => r
  | EBatch (inl e) => Some e
  | ESave _ r => r
  | EEvaluate _ _ (inl e) => Some e
  | EReport _ r => r
  | EPrint _ r => r
  | _ => None
  end.

(** The reports [on_batch_end] makes, and the one the fine-tuning loop
    makes. *)
Definition is_train_report (ev : event) : bool :=
  match ev with
  | EReport [OStr name; OFloat _] _ =>
      bool_decide (name = "Train loss" ∨ name = "Train accuracy")
  | _ => false
  end.

Definition is_test_report (ev : event) : bool :=
  match ev with
  | EReport [OStr "Test loss"; OFloat _; OStr "Test accuracy"; OFloat _] _ => true
  | _ => false
  end.

(** Projections of a history: what was sent to the sink, which paths
    were saved to, which directories were read, what the clock said. *)
Definition reports (l : list event) : list (list pyobj) :=
  omap (fun ev => match ev with EReport args _ => Some args | _ => None end) l.

Definition saves (l : list event) : list string :=
  omap (fun ev => match ev with ESave path _ => Some path | _ => None end) l.

Definition flows (l : list event) : list string :=
  omap (fun ev => match ev with EFlow d _ _ _ _ _ _ => Some d | _ => None end) l.

Definition times (l : list event) : list float :=
  omap (fun ev => match ev with ETime t => Some t | _ => None end) l.

(** The compile and fit calls of a history, in order. *)
Inductive phase_event : Type :=
  | PCompile (opt : optimizer) (flags : list bool)
  | PFit (epochs : nat).

Definition phases (l : list event) : list phase_event :=
  omap (fun ev => match ev with
                  | ECompile opt _ _ flags _ => Some (PCompile opt flags)
                  | EFit _ _ epochs _ => Some (PFit epochs)
                  | _ => None
                  end) l.

(** What a program added to the history. *)
Definition new_events (s s' : state) : list event :=
  drop (length (log s)) (log s').

(** [spec m P]: in every world and from every state, [m] only appends to
    the history, and its outcome and the events it appends satisfy [P]. *)
Definition spec {A} (m : M A) (P : result A -> list event -> Prop) : Prop :=
  forall w s, exists new, log (m w s).2 = (log s ++ new)%list /\ P (m w s).1 new.

(** Every event [m] appends satisfies [Q]. *)
Definition emits {A} (Q : event -> Prop) (m : M A) : Prop :=
  spec m (fun _ new => Forall Q new).

(** [m] assigns to no layer object and creates none. *)
Definition keeps_heap {A} (m : M A) : Prop :=
  forall w s, heap (m w s).2 = heap s.

End Trace.

Import Trace.

(** The path [ModelCheckpoint] saves to after epoch number [k] (from 1). *)
Definition checkpoint (k : Z) : string := "weights." +:+ Py.pad2 k +:+ ".hdf5".

(** The path of the final model, for a clock reading in milliseconds. *)
Definition final_path (ms : Z) : string := "tmnt_koopa_" +:+ Py.str_of_int ms +:+ ".h5".

(** RMSprop's learning rate when the optimizer is named by the string
    ['rmsprop'], as the framework documents it. *)
Definition rmsprop_default_lr : float := 0.001%float.

(** ** The shape of a training run's history *)

(** What a batch adds: the training step, the reports [on_batch_end]
    makes, and the print of an exception it caught. *)
Definition batch_event (ev : event) : Prop :=
  match ev with
  | EBatch _ => True
  | EReport _ _ => is_train_report ev = true
  | EPrint [Py.OExc _] _ => True
  | _ => False
  end.

(** What a call [fit_generator g steps epochs callbacks] adds, whatever the
    world does: the call itself, batches, and checkpoints numbered from 1
    to [epochs]. *)
Definition fit_event (g : generator) (steps : Z) (epochs : nat) (ev : event) : Prop :=
  match ev with
  | EFit g' steps' epochs' _ => g' = g /\ steps' = steps /\ epochs' = epochs
  | ESave path _ => exists k, (k < epochs)%nat /\ path = checkpoint (Z.of_nat k + 1)
  | _ => batch_event ev
  end.

(** The history of epoch [k] (from 0) when it completes: its batches, then
    the checkpoint. *)
Definition epoch_log (k : nat) (l : list event) : Prop :=
  exists batches,
    Forall batch_event batches /\
    l = (batches ++ [ESave (checkpoint (Z.of_nat k + 1)) None])%list.

(** The history of a call to [fit_generator] that returns. *)
Definition fit_log (g : generator) (steps : Z) (epochs : nat) (l : list event) : Prop :=
  exists els,
    l = EFit g steps epochs None :: concat els /\
    Forall2 epoch_log (seq 0 epochs) els.

(** The call [_make_generator] makes, with the arguments of lines 59-64. *)
Definition flow_event (directory : string) (r : Py.exc + Z) : event :=
  EFlow directory (229, 229) "rgb" 32 "categorical" true r.

(** The history of one turn of the fine-tuning loop when it completes: a
    fit of one epoch on [train], then the evaluation on [test] and the
    report of what it returned. *)
Definition round_log (train : generator) (steps_train : Z) (test : generator)
    (steps_test : Z) (l : list event) : Prop :=
  exists fl loss acc,
    fit_log train steps_train 1 fl /\
    l = (fl ++ [EEvaluate test steps_test (inr (loss, acc));
               EReport [Py.OStr "Test loss"; Py.OFloat loss;
                        Py.OStr "Test accuracy"; Py.OFloat acc] None])%list.

(** What the fine-tuning loop may add, whatever the world does. *)
Definition fine_tune_event (ev : event) : Prop :=
  match ev with
  | EFit _ _ epochs _ => epochs = 1%nat
  | ESave path _ => path = "weights.01.hdf5"
  | EEvaluate _ _ _ => True
  | EReport _ _ => is_train_report ev = true \/ is_test_report ev = true
  | _ => batch_event ev
  end.

(** The kinds of a model's layers, in order. *)
Definition layer_kinds (m : model) (s : state) : list layer_kind :=
  omap (fun ref => kind <$> heap s !! ref) (m_layers m).

(** The head the script puts on the backbone. *)
Definition head : list layer_kind :=
  [GlobalAveragePooling2D; Dense 1024 "relu"; Dense 512 "relu"; Dense 32 "relu";
   Dense 2 "softmax"].

(** The trainable attributes at the two compiles, for a backbone of [nb]
    layers: layer [i] is trainable in the first phase when it is not a
    backbone layer, in the second when its index is at least 249. *)
Definition phase1_flags (nb : nat) : list bool :=
  (fun i => bool_decide (nb <= i)%nat) <$> seq 0 (nb + 5).

Definition phase2_flags (nb : nat) : list bool :=
  (fun i => bool_decide (249 <= i)%nat) <$> seq 0 (nb + 5).

(** What the loop of lines 92-93 prints: an index and a layer name. *)
Definition layer_print (ev : event) : Prop :=
  match ev with
  | EPrint [Py.OInt _; Py.OStr _] _ => True
  | _ => False
  end.

(** The two compiles of the script. *)
Definition compile_head (nb : nat) : event :=
  ECompile (OptimizerName "rmsprop") "categorical_crossentropy"
           ["categorical_accuracy"] (phase1_flags nb) None.

Definition compile_fine_tune (nb : nat) : event :=
  ECompile (SGD 0.0001 0.9) "categorical_crossentropy"
           ["categorical_accuracy"] (phase2_flags nb) None.

(** The directories the script may read and the paths it may save to. *)
Definition file_event (ev : event) : Prop :=
  match ev with
  | EFlow directory _ _ _ _ _ _ => directory = "./train/" \/ directory = "./test/"
  | ESave path _ =>
      (exists k, 1 <= k <= 50 /\ path = checkpoint k) \/
      (exists ms, path = final_path ms)
  | _ => True
  end.

(** The step counts the second phase passes on, for directories of
    [n_train] and [n_test] images. *)
Definition steps_event (n_train n_test : Z) (ev : event) : Prop :=
  match ev with
  | EFit g steps _ _ => g = Generator "./train/" n_train 32 /\ steps = n_train / 32
  | EEvaluate g steps _ => g = Generator "./test/" n_test 32 /\ steps = n_test / 32
  | _ => True
  end.

(** A foreign call that raised and was caught: a report made by
    [on_batch_end] that raised an instance of Exception. *)
Definition swallowed (ev : event) : Prop :=
  match failed ev with
  | None => True
  | Some e => is_train_report ev = true /\ Py.isinstance_Exception e = true
  end.

(** Nothing else is caught: a program that returns has seen no failure but
    swallowed ones, and a program that raises [e] either raised it from a
    builtin or ends its history with the foreign call that raised [e]. *)
Definition propagates {A} (r : result A) (new : list event) : Prop :=
  match r with
  | Ok _ => Forall swallowed new
  | Raise e =>
      Forall swallowed new \/
      exists pre ev, new = (pre ++ [ev])%list /\ Forall swallowed pre /\ failed ev = Some e
  end.

Definition uncaught {A} (m : M A) : Prop := spec m propagates.

(** ** Further readings of a history and of the world *)

(** The calls to the sink, each with its outcome. *)
Definition report_calls (l : list event) : list (list Py.pyobj * option Py.exc) :=
  omap (fun ev => match ev with EReport args r => Some (args, r) | _ => None end) l.

(** The lines the loop of lines 92-93 printed: index and name. *)
Definition layer_prints (l : list event) : list (Z * string) :=
  omap (fun ev => match ev with
                  | EPrint [Py.OInt i; Py.OStr name] None => Some (i, name)
                  | _ => None
                  end) l.

(** Everything the script may send to the sink. *)
Definition report_event (ev : event) : Prop :=
  match ev with
  | EReport _ _ => is_train_report ev = true \/ is_test_report ev = true
  | _ => True
  end.

(** Events that are not a reading of the clock. *)
Definition no_clock (ev : event) : Prop :=
  match ev with
  | ETime _ => False
  | _ => True
  end.

(** What lines 130-133 may add: the clock reading, the save of the final
    model, the final evaluation and the print of its result.  No call to the
    sink is among them. *)
Definition final_event (ev : event) : Prop :=
  match ev with
  | ETime _ => True
  | ESave path _ => exists ms, path = final_path ms
  | EEvaluate _ _ _ => True
  | EPrint [Py.OStr "test loss and accuracy"; Py.OList _] _ => True
  | _ => False
  end.

(** A history that reads no clock, followed by one made of the events of
    lines 130-133 only. *)
Definition ends_with_final (l : list event) : Prop :=
  exists before after,
    l = (before ++ after)%list /\ times before = [] /\ Forall final_event after.

(** A sink that fails only with instances of Exception. *)
Definition sink_fails_softly (w : world) : Prop :=
  forall h args e, w_report_scalar w h args = Some e -> Py.isinstance_Exception e = true.

(** Logs on whose values [float()] raises nothing but instances of
    Exception. *)
Definition floatable (logs : gmap string Py.pyval) : Prop :=
  forall key v e, logs !! key = Some v -> Py.py_float v = inl e ->
                  Py.isinstance_Exception e = true.

(** A standard output on which every [print] succeeds. *)
Definition prints_succeed (w : world) : Prop :=
  forall h args, w_print w h args = None.

(** A framework and a file system that never fail during a fit. *)
Definition framework_succeeds (w : world) : Prop :=
  forall h, w_fit w h = None /\ (forall path, w_save w h path = None) /\
            exists logs, w_batch w h = inr logs /\ floatable logs.

(** Events that are not the compile of the second phase. *)
Definition before_fine_tuning (ev : event) : Prop :=
  match ev with
  | ECompile (SGD _ _) _ _ _ _ => False
  | _ => True
  end.

(** A world in which a fit meets no failure at all: the framework, the
    file system and the sink succeed, and the logs of every batch hold both
    metrics as values [float()] converts. *)
Definition healthy (w : world) : Prop :=
  forall h,
    w_fit w h = None /\ (forall path, w_save w h path = None) /\
    (forall args, w_report_scalar w h args = None) /\
    exists logs vl l va a,
      w_batch w h = inr logs /\
      logs !! "loss" = Some vl /\ Py.py_float vl = inr l /\
      logs !! "categorical_accuracy" = Some va /\ Py.py_float va = inr a.

(** [m] returns, having made exactly [k] calls to the sink. *)
Definition sends {A} (k : nat) (m : M A) (w : world) : Prop :=
  forall s, exists a new,
    (m w s).1 = Ok a /\ log (m w s).2 = (log s ++ new)%list /\
    length (reports new) = k.

(** The distinct paths a history saved to. *)
Definition files (l : list event) : gset string := list_to_set (saves l).

(** ** Sample worlds *)

Module Samples.
Import Py.

(** The logs of a batch as the framework fills them in. *)
Definition logs : gmap string pyval :=
  <["loss" := VFloat 0.5]> (<["categorical_accuracy" := VFloat 0.75]> ∅).

(** A backbone of four layers, so that index 249 lies past the model's
    last layer, and one of 311 layers, the size of InceptionV3 without
    its top in the framework. *)
Definition tiny : list string := ["input_1"; "conv2d_1"; "conv2d_2"; "mixed10"].

Definition inception : list string := replicate 311 "conv2d".

(** Nothing fails: [n] images in every directory, the same logs after
    every batch, the same test metrics, a clock that stands still. *)
Definition quiet (names : list string) (n : Z) : world :=
  World (fun _ => inr names) (fun _ => None) (fun _ _ => inr n) (fun _ => None)
        (fun _ => inr logs) (fun _ _ => None)
        (fun _ => inr (0.25, 0.875)%float) (fun _ _ => None)
        (fun _ => 1730000000.5%float) (fun _ _ => None).

(** As [quiet], but the reporting sink raises [e] on every call. *)
Definition sink_raises (e : exc) (names : list string) (n : Z) : world :=
  let w := quiet names n in
  World (w_InceptionV3 w) (w_compile w) (w_flow_from_directory w) (w_fit w)
        (w_batch w) (w_save w) (w_evaluate_generator w) (fun _ _ => Some e)
        (w_time w) (w_print w).

(** As [quiet], but the third save fails: the disk is full. *)
Definition disk_full (names : list string) (n : Z) : world :=
  let w := quiet names n in
  World (w_InceptionV3 w) (w_compile w) (w_flow_from_directory w) (w_fit w)
        (w_batch w)
        (fun h _ => if decide (length (saves h) = 2%nat) then Some OSError else None)
        (w_evaluate_generator w) (w_report_scalar w) (w_time w) (w_print w).

(** The layer objects and the model right after lines 18-33, for the
    backbone [tiny]: nine layers, all trainable. *)
Definition built : state :=
  State ((fun k => Layer k true) <$> ((Backbone <$> tiny) ++ head)%list) [].

Definition tiny_model : model := Model (Tensor [0%nat]) (Tensor (seq 0 9)).

(** As [quiet], but there is no [./train/] directory. *)
Definition no_train_directory (names : list string) : world :=
  let w := quiet names 40 in
  World (w_InceptionV3 w) (w_compile w)
        (fun _ d => if decide (d = "./train/") then inl OSError else inr 40)
        (w_fit w) (w_batch w) (w_save w) (w_evaluate_generator w)
        (w_report_scalar w) (w_time w) (w_print w).

(** As [quiet], but the second training step runs out of memory. *)
Definition out_of_memory (names : list string) (n : Z) : world :=
  let w := quiet names n in
  World (w_InceptionV3 w) (w_compile w) (w_flow_from_directory w) (w_fit w)
        (fun h => if decide (length (saves h) = 1%nat) then inl MemoryError
                  else inr logs)
        (w_save w) (w_evaluate_generator w) (w_report_scalar w) (w_time w)
        (w_print w).

(** As [sink_raises], but the standard output is closed as well: every
    [print] raises ValueError. *)
Definition stdout_closed (e : exc) (names : list string) (n : Z) : world :=
  let w := sink_raises e names n in
  World (w_InceptionV3 w) (w_compile w) (w_flow_from_directory w) (w_fit w)
        (w_batch w) (w_save w) (w_evaluate_generator w) (w_report_scalar w)
        (w_time w) (fun _ _ => Some ValueError).

End Samples.

(** ** Reasoning about programs *)

Section Rules.
Context {A B : Type}.

Lemma spec_weaken (m : M A) (P Q : result A -> list event -> Prop) :
  spec m P -> (forall r new, P r new -> Q r new) -> spec m Q.
Proof.
  intros Hm HPQ w s. destruct (Hm w s) as (new & Hlog & HP).
  exists new. split; [exact Hlog | apply HPQ, HP].
Qed.

Lemma spec_ret (a : A) : spec (ret a) (fun r new => r = Ok a /\ new = []).
Proof. intros w s. exists []. simpl. by rewrite app_nil_r. Qed.

Lemma spec_lift (x : Py.exc + A) :
  spec (lift x) (fun r new =>
    new = [] /\ match x with inl e => r = Raise e | inr a => r = Ok a end).
Proof. intros w s. exists []. destruct x; simpl; by rewrite app_nil_r. Qed.

Lemma spec_bind (m : M A) (k : A -> M B) P (Q : A -> result B -> list event -> Prop) :
  spec m P -> (forall a, spec (k a) (Q a)) ->
  spec (bind m k) (fun r new =>
    (exists e, r = Raise e /\ P (Raise e) new) \/
    (exists a n1 n2, new = (n1 ++ n2)%list /\ P (Ok a) n1 /\ Q a r n2)).
Proof.
  intros Hm Hk w s. unfold bind.
  destruct (Hm w s) as (n1 & Hlog1 & HP).
  destruct (m w s) as [[a | e] s1]; simpl in *.
  - destruct (Hk a w s1) as (n2 & Hlog2 & HQ).
    exists (n1 ++ n2)%list. split.
    + by rewrite Hlog2, Hlog1, app_assoc.
    + right. by exists a, n1, n2.
  - exists n1. split; [done |]. left. by exists e.
Qed.

End Rules.

Lemma emits_weaken {A} (Q Q' : event -> Prop) (m : M A) :
  emits Q m -> (forall ev, Q ev -> Q' ev) -> emits Q' m.
Proof.
  intros Hm HQ. eapply spec_weaken; [exact Hm |].
  intros r new H. simpl in *. eapply Forall_impl; eauto.
Qed.

Lemma emits_bind {A B} (Q : event -> Prop) (m : M A) (k : A -> M B) :
  emits Q m -> (forall a, emits Q (k a)) -> emits Q (bind m k).
Proof.
  intros Hm Hk.
  eapply spec_weaken;
    [exact (spec_bind m k (fun _ new => Forall Q new)
              (fun _ _ new => Forall Q new) Hm Hk) |].
  intros r new [(e & _ & H) | (a & n1 & n2 & -> & H1 & H2)]; [done |].
  by apply Forall_app.
Qed.

Lemma emits_ret {A} (Q : event -> Prop) (a : A) : emits Q (ret a).
Proof. eapply spec_weaken; [apply spec_ret |]. by intros r new [_ ->]. Qed.

Lemma emits_lift {A} (Q : event -> Prop) (x : Py.exc + A) : emits Q (lift x).
Proof. eapply spec_weaken; [apply spec_lift |]. by intros r new [-> _]. Qed.

Lemma emits_for_each {A} (Q : event -> Prop) (xs : list A) (body : A -> M unit) :
  (forall x, x ∈ xs -> emits Q (body x)) -> emits Q (for_each xs body).
Proof.
  induction xs as [| x xs IH]; intros Hbody; simpl.
  - apply emits_ret.
  - apply emits_bind; [apply Hbody; left |].
    intros _. apply IH. intros y Hy. apply Hbody. by right.
Qed.

Lemma emits_try_except {A} (Q : event -> Prop) (body : M A) (handler : Py.exc -> M A) :
  emits Q body -> (forall e, emits Q (handler e)) ->
  emits Q (try_except_Exception body handler).
Proof.
  intros Hb Hh w s. unfold try_except_Exception.
  destruct (Hb w s) as (n1 & Hlog1 & H1).
  destruct (body w s) as [[a | e] s1]; simpl in *; [by exists n1 |].
  destruct (Py.isinstance_Exception e); [| by exists n1].
  destruct (Hh e w s1) as (n2 & Hlog2 & H2).
  exists (n1 ++ n2)%list. split.
  - by rewrite Hlog2, Hlog1, app_assoc.
  - by apply Forall_app.
Qed.

(** *** Foreign calls add exactly one event *)

Lemma spec_foreign {A} (ask : world -> list event -> Py.exc + A) ev :
  spec (foreign ask ev) (fun r new =>
    exists x, new = [ev x] /\ r = match x with inl e => Raise e | inr a => Ok a end).
Proof.
  intros w s. unfold foreign. exists [ev (ask w (log s))].
  destruct (ask w (log s)) as [e | a] eqn:E; simpl; (split; [done |]).
  - by exists (inl e).
  - by exists (inr a).
Qed.

Lemma spec_foreign_unit (ask : world -> list event -> option Py.exc) ev :
  spec (foreign_unit ask ev) (fun r new =>
    exists x, new = [ev x] /\ r = match x with Some e => Raise e | None => Ok tt end).
Proof.
  intros w s. unfold foreign_unit. exists [ev (ask w (log s))].
  destruct (ask w (log s)) as [e |] eqn:E; simpl; (split; [done |]).
  - by exists (Some e).
  - by exists None.
Qed.

Lemma spec_time : spec time (fun r new => exists t, new = [ETime t] /\ r = Ok t).
Proof. intros w s. eexists. split; [reflexivity |]. by eexists. Qed.

Lemma spec_print args :
  spec (print args) (fun r new =>
    exists x, new = [EPrint args x] /\
              r = match x with Some e => Raise e | None => Ok tt end).
Proof. apply spec_foreign_unit. Qed.

Lemma spec_alloc kinds : spec (alloc kinds) (fun r new => new = [] /\ exists refs, r = Ok refs).
Proof. intros w s. exists []. simpl. rewrite app_nil_r. eauto. Qed.

Lemma spec_set_trainable b ref : spec (set_trainable b ref) (fun r new => new = [] /\ r = Ok tt).
Proof. intros w s. exists []. simpl. by rewrite app_nil_r. Qed.

Lemma spec_get_name ref : spec (get_name ref) (fun r new => new = [] /\ exists n, r = Ok n).
Proof. intros w s. exists []. simpl. rewrite app_nil_r. eauto. Qed.

Lemma emits_foreign {A} (Q : event -> Prop) (ask : world -> list event -> Py.exc + A) ev :
  (forall x, Q (ev x)) -> emits Q (foreign ask ev).
Proof.
  intros HQ. eapply spec_weaken; [apply spec_foreign |].
  intros r new (x & -> & _). by constructor.
Qed.

Lemma emits_foreign_unit (Q : event -> Prop) (ask : world -> list event -> option Py.exc) ev :
  (forall x, Q (ev x)) -> emits Q (foreign_unit ask ev).
Proof.
  intros HQ. eapply spec_weaken; [apply spec_foreign_unit |].
  intros r new (x & -> & _). by constructor.
Qed.

Lemma emits_time (Q : event -> Prop) : (forall t, Q (ETime t)) -> emits Q time.
Proof.
  intros HQ. eapply spec_weaken; [apply spec_time |].
  intros r new (t & -> & _). by constructor.
Qed.

Lemma emits_print (Q : event -> Prop) args :
  (forall r, Q (EPrint args r)) -> emits Q (print args).
Proof. apply emits_foreign_unit. Qed.

Lemma emits_alloc (Q : event -> Prop) kinds : emits Q (alloc kinds).
Proof. eapply spec_weaken; [apply spec_alloc |]. by intros r new [-> _]. Qed.

Lemma emits_set_trainable (Q : event -> Prop) b ref : emits Q (set_trainable b ref).
Proof. eapply spec_weaken; [apply spec_set_trainable |]. by intros r new [-> _]. Qed.

Lemma emits_get_name (Q : event -> Prop) ref : emits Q (get_name ref).
Proof. eapply spec_weaken; [apply spec_get_name |]. by intros r new [-> _]. Qed.

(** One tactic for "every event this program adds satisfies Q": follow the
    program's structure down to the foreign calls. *)
Ltac emits_step :=
  match goal with
  | |- emits _ (bind _ _) => apply emits_bind; [| intros ?]
  | |- emits _ (ret _) => apply emits_ret
  | |- emits _ (lift _) => apply emits_lift
  | |- emits _ (alloc _) => apply emits_alloc
  | |- emits _ (set_trainable _ _) => apply emits_set_trainable
  | |- emits _ (get_name _) => apply emits_get_name
  | |- emits _ (print _) => apply emits_print; intros ?
  | |- emits _ time => apply emits_time; intros ?
  | |- emits _ (foreign _ _) => apply emits_foreign; intros ?
  | |- emits _ (foreign_unit _ _) => apply emits_foreign_unit; intros ?
  | |- emits _ (try_except_Exception _ _) => apply emits_try_except; [| intros ?]
  | |- emits _ (for_each _ _) => apply emits_for_each; intros ? ?
  | |- emits _ (if ?c then _ else _) => destruct c
  | |- emits _ (let (_, _) := ?p in _) => destruct p
  end.

Ltac emits_auto := repeat emits_step.

(** *** The callbacks and the training loop, in every world *)

Import Py Script.

Lemma on_batch_end_emits batch logs : emits batch_event (on_batch_end batch logs).
Proof. unfold on_batch_end, report_scalar. emits_auto; done. Qed.

Lemma run_batch_emits batch : emits batch_event (run_batch callbacks batch).
Proof.
  unfold run_batch, train_batch, callbacks. emits_auto; [done |].
  repeat match goal with
         | H : _ ∈ _ :: _ |- _ => apply elem_of_cons in H as [-> | H]
         | H : _ ∈ [] |- _ => by apply elem_of_nil in H
         end; simpl.
  - apply on_batch_end_emits.
  - apply emits_ret.
Qed.

Lemma batch_event_fit g steps epochs ev : batch_event ev -> fit_event g steps epochs ev.
Proof. by destruct ev. Qed.

Lemma format_checkpoint k :
  format_epoch "weights.{epoch:02d}.hdf5" k = checkpoint k.
Proof. reflexivity. Qed.

Lemma run_epoch_emits g steps epochs epoch :
  (epoch < epochs)%nat ->
  emits (fit_event g steps epochs) (run_epoch steps callbacks epoch).
Proof.
  intros Hlt. unfold run_epoch. apply emits_bind.
  - apply emits_for_each. intros batch _.
    eapply emits_weaken; [apply run_batch_emits | apply batch_event_fit].
  - intros _. unfold callbacks. emits_auto.
    repeat match goal with
           | H : _ ∈ _ :: _ |- _ => apply elem_of_cons in H as [-> | H]
           | H : _ ∈ [] |- _ => by apply elem_of_nil in H
           end; simpl.
    + apply emits_ret.
    + unfold save. rewrite format_checkpoint. emits_auto. simpl. eauto.
Qed.

Lemma fit_generator_emits g steps epochs :
  emits (fit_event g steps epochs) (fit_generator g steps epochs callbacks).
Proof.
  unfold fit_generator, fit_begin. emits_auto; [done |].
  apply run_epoch_emits.
  match goal with H : _ ∈ seq _ _ |- _ => apply elem_of_seq in H end. lia.
Qed.

(** ** The callback [on_batch_end] *)

(** C10, as the code has it.  Every instance of Exception raised inside
    the try body of [on_batch_end] is caught and handed to [print], and the
    callback then ends as that [print] does: it returns when the print
    returns and raises what the print raised otherwise.  An exception that is
    not an instance of Exception is not caught: it reaches the caller, and
    nothing is printed.  The cases, in the order of lines 47-48: a missing
    ['loss'] key; [float()] raising on the loss; the sink raising on the
    first report; a missing ['categorical_accuracy'] key; [float()] raising
    on the accuracy; the sink raising on the second report; and no failure,
    when the callback returns after the two reports.  So what
    [on_batch_end] propagates is never an instance of Exception raised in
    the try body: it is not an instance of Exception, or it was raised by
    the [print] of a caught one. *)
Theorem on_batch_end_catches_Exception batch logs w s :
  let out := on_batch_end batch logs w s in
  let caught (e : exc) (s1 : state) :=
    let r := w_print w (log s1) [OExc e] in
    out = lift_unit r w (record (EPrint [OExc e] r) s1) in
  let raised (e : exc) (s1 : state) :=
    if isinstance_Exception e then caught e s1 else out = (Raise e, s1) in
  (forall e, out.1 = Raise e ->
     isinstance_Exception e = false \/
     exists e0, isinstance_Exception e0 = true /\
                last (log out.2) = Some (EPrint [OExc e0] (Some e))) /\
  (logs !! "loss" = None -> caught (KeyError "loss") s) /\
  (forall v e, logs !! "loss" = Some v -> py_float v = inl e -> raised e s) /\
  (forall v l, logs !! "loss" = Some v -> py_float v = inr l ->
     let r1 := w_report_scalar w (log s) [OStr "Train loss"; OFloat l] in
     let s1 := record (EReport [OStr "Train loss"; OFloat l] r1) s in
     match r1 with
     | Some e => raised e s1
     | None =>
         (logs !! "categorical_accuracy" = None ->
          caught (KeyError "categorical_accuracy") s1) /\
         (forall v' e, logs !! "categorical_accuracy" = Some v' ->
                       py_float v' = inl e -> raised e s1) /\
         (forall v' a, logs !! "categorical_accuracy" = Some v' ->
                       py_float v' = inr a ->
            let r2 := w_report_scalar w (log s1) [OStr "Train accuracy"; OFloat a] in
            let s2 := record (EReport [OStr "Train accuracy"; OFloat a] r2) s1 in
            match r2 with
            | Some e => raised e s2
            | None => out = (Ok tt, s2)
            end)
     end).
Proof.
  cbv zeta. split; [| split; [| split]].
  - intros e. unfold on_batch_end, try_except_Exception.
    destruct (bind _ _ w s) as [[[] | e'] s']; simpl; [done |].
    destruct (isinstance_Exception e') eqn:E; simpl; [| intros [= <-]; by left].
    unfold print, foreign_unit.
    destruct (w_print w (log s') [OExc e']) as [e'' |]; simpl; [| done].
    intros [= <-]. right. exists e'. split; [done |]. apply last_snoc.
  - intros Hloss.
    cbv beta iota delta [on_batch_end try_except_Exception bind lift ret raise
                         report_scalar getitem print foreign_unit].
    by rewrite Hloss.
  - intros v e Hloss Hfloat.
    cbv beta iota delta [on_batch_end try_except_Exception bind lift ret raise
                         report_scalar getitem print foreign_unit].
    rewrite Hloss. simpl. rewrite Hfloat. simpl.
    by destruct (isinstance_Exception e).
  - intros v l Hloss Hfloat.
    cbv beta iota delta [on_batch_end try_except_Exception bind lift ret raise
                         report_scalar getitem print foreign_unit].
    rewrite Hloss. simpl. rewrite Hfloat. simpl.
    destruct (w_report_scalar w (log s) [OStr "Train loss"; OFloat l]) as [e |]; simpl.
    { by destruct (isinstance_Exception e). }
    split; [| split].
    + intros Hacc. by rewrite Hacc.
    + intros v' e Hacc Hfloat'. rewrite Hacc. simpl. rewrite Hfloat'. simpl.
      by destruct (isinstance_Exception e).
    + intros v' a Hacc Hfloat'. rewrite Hacc. simpl. rewrite Hfloat'. simpl.
      destruct (w_report_scalar w _ [OStr "Train accuracy"; OFloat a]) as [e |]; simpl;
        [| done].
      by destruct (isinstance_Exception e).
Qed.

(** A sink that raises OSError on the first report, in a world where
    printing works and in one where the standard output is closed. *)
Lemma on_batch_end_catches_Exception_witness :
  on_batch_end 0 Samples.logs (Samples.sink_raises OSError Samples.tiny 40) initial
  = (Ok tt, record (EPrint [OExc OSError] None)
              (record (EReport [OStr "Train loss"; OFloat 0.5] (Some OSError)) initial)) /\
  on_batch_end 0 Samples.logs (Samples.stdout_closed OSError Samples.tiny 40) initial
  = (Raise ValueError,
     record (EPrint [OExc OSError] (Some ValueError))
       (record (EReport [OStr "Train loss"; OFloat 0.5] (Some OSError)) initial)).
Proof.
  split.
  - exact (proj2 (proj2 (proj2
             (on_batch_end_catches_Exception 0 Samples.logs
                (Samples.sink_raises OSError Samples.tiny 40) initial)))
             (VFloat 0.5) 0.5%float eq_refl eq_refl).
  - exact (proj2 (proj2 (proj2
             (on_batch_end_catches_Exception 0 Samples.logs
                (Samples.stdout_closed OSError Samples.tiny 40) initial)))
             (VFloat 0.5) 0.5%float eq_refl eq_refl).
Defined.

(** C10, as the spec states it, fails: with well-formed logs, a sink that
    raises KeyboardInterrupt makes [on_batch_end] propagate it. *)
Lemma on_batch_end_propagates_KeyboardInterrupt :
  (on_batch_end 0 Samples.logs
     (Samples.sink_raises KeyboardInterrupt Samples.tiny 40) initial).1
  = Raise KeyboardInterrupt.
Proof. reflexivity. Qed.

Lemma new_events_app s s' new : log s' = (log s ++ new)%list -> new_events s s' = new.
Proof. intros H. unfold new_events. by rewrite H, drop_app_length. Qed.

Lemma new_events_record s evs :
  new_events s (State (heap s) (log s ++ evs)%list) = evs.
Proof. by apply new_events_app. Qed.

Lemma new_events_same s : new_events s s = [].
Proof. unfold new_events. apply drop_all. Qed.

Ltac new_events_leaf :=
  first [ rewrite new_events_same
        | erewrite new_events_app by (simpl; rewrite <- ?app_assoc; reflexivity) ];
  simpl.

(** The same at the end of the handler of [on_batch_end], whatever the
    exception caught and whatever the print does. *)
Ltac handler_leaf :=
  try (destruct (isinstance_Exception _); simpl);
  try (destruct (w_print _ _ _); simpl);
  by new_events_leaf.

(** C5, as the code has it: at the end of a minibatch whose logs carry
    both metrics as values [float()] converts, the sink is sent ["Train loss"]
    with the float of the batch's loss; when it accepts that report, it is
    then sent ["Train accuracy"] with the float of the batch's categorical
    accuracy, and these two reports are all that is sent; when it raises on
    the first report, the second is never made. *)
Theorem minibatch_reports_two_metrics batch w s logs vl va l a :
  w_batch w (log s) = inr logs ->
  logs !! "loss" = Some vl -> py_float vl = inr l ->
  logs !! "categorical_accuracy" = Some va -> py_float va = inr a ->
  let sent := reports (new_events s (run_batch callbacks batch w s).2) in
  match w_report_scalar w (log s ++ [EBatch (inr logs)])%list
          [OStr "Train loss"; OFloat l] with
  | None => sent = [[OStr "Train loss"; OFloat l]; [OStr "Train accuracy"; OFloat a]]
  | Some _ => sent = [[OStr "Train loss"; OFloat l]]
  end.
Proof.
  intros Hbatch Hl Hfl Ha Hfa. cbv zeta.
  cbv beta iota delta [run_batch callbacks train_batch foreign for_each meeshkan_callback
                       LambdaCallback ModelCheckpoint cb_on_batch_end
                       on_batch_end try_except_Exception bind lift lift_unit ret raise
                       report_scalar foreign_unit getitem print].
  rewrite Hbatch. simpl. rewrite Hl. simpl. rewrite Hfl. simpl.
  destruct (w_report_scalar w _ [OStr "Train loss"; OFloat l]) as [e |]; simpl.
  { destruct (isinstance_Exception e); simpl; [| by new_events_leaf].
    destruct (w_print w _ [OExc e]); by new_events_leaf. }
  rewrite Ha. simpl. rewrite Hfa. simpl.
  destruct (w_report_scalar w _ [OStr "Train accuracy"; OFloat a]) as [e |]; simpl;
    [| by new_events_leaf].
  destruct (isinstance_Exception e); simpl; [| by new_events_leaf].
  destruct (w_print w _ [OExc e]); by new_events_leaf.
Qed.

Lemma minibatch_reports_two_metrics_witness :
  reports (new_events initial
             (run_batch callbacks 0 (Samples.quiet Samples.tiny 40) initial).2)
  = [[OStr "Train loss"; OFloat 0.5]; [OStr "Train accuracy"; OFloat 0.75]].
Proof.
  apply (minibatch_reports_two_metrics 0 (Samples.quiet Samples.tiny 40) initial
           Samples.logs (VFloat 0.5) (VFloat 0.75)); reflexivity.
Defined.

(** C5, as the spec states it, fails: when the sink raises OSError on every
    call, the minibatch ends with one report made, not two, and the callback
    returns all the same. *)
Lemma minibatch_sends_one_metric_when_sink_raises :
  let out := run_batch callbacks 0 (Samples.sink_raises OSError Samples.tiny 40) initial in
  out.1 = Ok tt /\
  reports (new_events initial out.2) = [[OStr "Train loss"; OFloat 0.5]].
Proof. by vm_compute. Qed.

(** ** The script fails where the sink fails outside the callback *)

(** C1, at a failing input: with a sink that raises OSError on every call,
    the reports of [on_batch_end] are caught all through the first phase,
    but the first test report of the fine-tuning loop ends the run: one of
    the ten fine-tuning epochs was run and the final model is not saved. *)
Theorem test_report_failure_aborts_training :
  let (r, s) := run (Samples.sink_raises OSError Samples.tiny 40) in
  r = Raise OSError /\
  last (log s)
  = Some (EReport [OStr "Test loss"; OFloat 0.25; OStr "Test accuracy"; OFloat 0.875]
                  (Some OSError)) /\
  omap (fun p => match p with PFit n => Some n | _ => None end) (phases (log s))
  = [50%nat; 1%nat] /\
  saves (log s)
  = (((fun k => checkpoint (Z.of_nat k)) <$> seq 1 50) ++ [checkpoint 1])%list /\
  times (log s) = [].
Proof. vm_compute. repeat split; reflexivity. Qed.

(** ** Programs that leave the layer objects alone *)

Lemma keeps_heap_bind {A B} (m : M A) (k : A -> M B) :
  keeps_heap m -> (forall a, keeps_heap (k a)) -> keeps_heap (bind m k).
Proof.
  intros Hm Hk w s. unfold bind. specialize (Hm w s).
  destruct (m w s) as [[a | e] s1]; simpl in *; [| done].
  by rewrite Hk.
Qed.

Lemma keeps_heap_ret {A} (a : A) : keeps_heap (ret a).
Proof. done. Qed.

Lemma keeps_heap_lift {A} (x : exc + A) : keeps_heap (lift x).
Proof. by destruct x. Qed.

Lemma keeps_heap_foreign {A} (ask : world -> list event -> exc + A) ev :
  keeps_heap (foreign ask ev).
Proof. intros w s. unfold foreign. by destruct (ask w (log s)). Qed.

Lemma keeps_heap_foreign_unit (ask : world -> list event -> option exc) ev :
  keeps_heap (foreign_unit ask ev).
Proof. intros w s. unfold foreign_unit. by destruct (ask w (log s)). Qed.

Lemma keeps_heap_for_each {A} (xs : list A) (body : A -> M unit) :
  (forall x, keeps_heap (body x)) -> keeps_heap (for_each xs body).
Proof.
  intros Hbody. induction xs as [| x xs IH]; simpl; [done |].
  apply keeps_heap_bind; [apply Hbody | by intros _].
Qed.

Lemma keeps_heap_try_except {A} (body : M A) (handler : exc -> M A) :
  keeps_heap body -> (forall e, keeps_heap (handler e)) ->
  keeps_heap (try_except_Exception body handler).
Proof.
  intros Hb Hh w s. unfold try_except_Exception. specialize (Hb w s).
  destruct (body w s) as [[a | e] s1]; simpl in *; [done |].
  destruct (isinstance_Exception e); [| done]. by rewrite Hh.
Qed.

Ltac keeps_heap_step :=
  match goal with
  | |- keeps_heap (bind _ _) => apply keeps_heap_bind; [| intros ?]
  | |- keeps_heap (ret _) => apply keeps_heap_ret
  | |- keeps_heap (lift _) => apply keeps_heap_lift
  | |- keeps_heap (foreign _ _) => apply keeps_heap_foreign
  | |- keeps_heap (foreign_unit _ _) => apply keeps_heap_foreign_unit
  | |- keeps_heap (for_each _ _) => apply keeps_heap_for_each; intros ?
  | |- keeps_heap (try_except_Exception _ _) =>
      apply keeps_heap_try_except; [| intros ?]
  | |- keeps_heap (if ?c then _ else _) => destruct c
  | |- keeps_heap (let (_, _) := ?p in _) => destruct p
  | |- keeps_heap (cb_on_batch_end ?cb _ _) => destruct cb; simpl
  | |- keeps_heap _ => done
  end.

Lemma on_batch_end_keeps_heap batch logs : keeps_heap (on_batch_end batch logs).
Proof. unfold on_batch_end, report_scalar, print. repeat keeps_heap_step. Qed.

Lemma fit_generator_keeps_heap g steps epochs :
  keeps_heap (fit_generator g steps epochs callbacks).
Proof.
  unfold fit_generator, fit_begin, run_epoch, run_batch, train_batch.
  apply keeps_heap_bind; [apply keeps_heap_foreign_unit | intros _].
  apply keeps_heap_for_each. intros epoch.
  apply keeps_heap_bind; [| intros _].
  - apply keeps_heap_for_each. intros batch.
    apply keeps_heap_bind; [apply keeps_heap_foreign | intros logs].
    simpl. apply keeps_heap_bind; [apply on_batch_end_keeps_heap | intros _].
    repeat keeps_heap_step.
  - simpl. unfold save. repeat keeps_heap_step.
Qed.

(** ** The training loop when it returns *)

Lemma bind_Ok {A B} (m : M A) (k : A -> M B) w s b s2 :
  bind m k w s = (Ok b, s2) ->
  exists a s1, m w s = (Ok a, s1) /\ k a w s1 = (Ok b, s2).
Proof.
  unfold bind. destruct (m w s) as [[a | e] s1]; [| done].
  intros H. by exists a, s1.
Qed.

Lemma spec_run {A} (m : M A) P w s r s' :
  spec m P -> m w s = (r, s') -> exists new, log s' = (log s ++ new)%list /\ P r new.
Proof. intros Hm E. specialize (Hm w s). by rewrite E in Hm. Qed.

Lemma spec_for_each_ok {A} (xs : list A) (body : A -> M unit)
    (P : A -> list event -> Prop) :
  (forall x, spec (body x) (fun r new => r = Ok tt -> P x new)) ->
  spec (for_each xs body) (fun r new =>
    r = Ok tt -> exists parts, new = concat parts /\ Forall2 P xs parts).
Proof.
  intros Hbody. induction xs as [| x xs IH]; simpl.
  - eapply spec_weaken; [apply spec_ret |].
    intros r new [_ ->] _. by exists [].
  - eapply spec_weaken; [exact (spec_bind _ _ _ _ (Hbody x) (fun _ => IH)) |].
    intros r new [(e & -> & _) | (a & n1 & n2 & -> & H1 & H2)] Hr; [done |].
    destruct a. destruct (H2 Hr) as (parts & -> & Hparts).
    exists (n1 :: parts). split; [done |]. constructor; [by apply H1 | done].
Qed.

Lemma on_epoch_end_spec epoch :
  spec (for_each callbacks (fun cb => cb_on_epoch_end cb epoch)) (fun r new =>
    exists x, new = [ESave (checkpoint (Z.of_nat epoch + 1)) x] /\
              r = match x with Some e => Raise e | None => Ok tt end).
Proof.
  unfold callbacks. simpl. rewrite format_checkpoint. unfold save.
  eapply spec_weaken.
  - exact (spec_bind _ _ _ _ (spec_ret tt)
             (fun _ => spec_bind _ _ _ _ (spec_foreign_unit _ _)
                         (fun _ => spec_ret tt))).
  - intros r new [(e & -> & ? & _) | (a & n1 & n2 & -> & [_ ->] & H)]; [done |].
    destruct H as [(e & -> & (x & -> & E)) | (a' & m1 & m2 & -> & (x & -> & E) & -> & ->)].
    + exists x. split; [done |]. by destruct x.
    + exists x. split; [done |]. by destruct x.
Qed.

Lemma run_epoch_ok steps epoch :
  spec (run_epoch steps callbacks epoch) (fun r new => r = Ok tt -> epoch_log epoch new).
Proof.
  unfold run_epoch.
  eapply spec_weaken.
  - refine (spec_bind _ _ (fun _ new => Forall batch_event new) _ _
              (fun _ => on_epoch_end_spec epoch)).
    apply emits_for_each. intros batch _. apply run_batch_emits.
  - intros r new [(e & -> & _) | (a & n1 & n2 & -> & H1 & x & -> & ->)] Hr; [done |].
    destruct x; [done |]. by exists n1.
Qed.

Lemma fit_generator_ok g steps epochs :
  spec (fit_generator g steps epochs callbacks) (fun r new =>
    r = Ok tt -> fit_log g steps epochs new).
Proof.
  unfold fit_generator, fit_begin.
  eapply spec_weaken.
  - exact (spec_bind _ _ _ _ (spec_foreign_unit _ _)
             (fun _ => spec_for_each_ok _ _ epoch_log (run_epoch_ok steps))).
  - intros r new [(e & -> & _) | (a & n1 & n2 & -> & (x & -> & E) & H2)] Hr; [done |].
    destruct x; [done |]. destruct (H2 Hr) as (els & -> & Hels). by exists els.
Qed.

(** Projections of what a batch, an epoch and a whole fit add. *)

Lemma saves_app l1 l2 : saves (l1 ++ l2) = (saves l1 ++ saves l2)%list.
Proof. apply omap_app. Qed.

Lemma flows_app l1 l2 : flows (l1 ++ l2) = (flows l1 ++ flows l2)%list.
Proof. apply omap_app. Qed.

Lemma times_app l1 l2 : times (l1 ++ l2) = (times l1 ++ times l2)%list.
Proof. apply omap_app. Qed.

Lemma phases_app l1 l2 : phases (l1 ++ l2) = (phases l1 ++ phases l2)%list.
Proof. apply omap_app. Qed.

Lemma omap_nil_Forall {X Y} (f : X -> option Y) (l : list X) :
  Forall (fun x => f x = None) l -> omap f l = [].
Proof. induction 1 as [| x l Hx _ IH]; simpl; [done |]. by rewrite Hx. Qed.

Lemma batches_project batches :
  Forall batch_event batches ->
  saves batches = [] /\ flows batches = [] /\ times batches = [] /\ phases batches = [].
Proof.
  intros H. repeat split; apply omap_nil_Forall;
    (eapply Forall_impl; [exact H |]); by intros [].
Qed.

Lemma epochs_project (xs : list nat) els :
  Forall2 epoch_log xs els ->
  saves (concat els) = (fun k => checkpoint (Z.of_nat k + 1)) <$> xs /\
  flows (concat els) = [] /\ times (concat els) = [] /\ phases (concat els) = [].
Proof.
  induction 1 as [| k el xs els (batches & Hb & ->) _ (IH1 & IH2 & IH3 & IH4)]; [done |].
  destruct (batches_project _ Hb) as (B1 & B2 & B3 & B4). simpl.
  rewrite !saves_app, !flows_app, !times_app, !phases_app.
  rewrite B1, B2, B3, B4, IH1, IH2, IH3, IH4. done.
Qed.

Lemma fit_log_project g steps epochs l :
  fit_log g steps epochs l ->
  saves l = (fun k => checkpoint (Z.of_nat k + 1)) <$> seq 0 epochs /\
  flows l = [] /\ times l = [] /\ phases l = [PFit epochs].
Proof.
  intros (els & -> & Hels).
  destruct (epochs_project _ _ Hels) as (E1 & E2 & E3 & E4).
  simpl. by rewrite E4.
Qed.

(** ** The fine-tuning loop *)

Lemma modulo_TEST_INTERVAL i : modulo (Z.of_nat i) TEST_INTERVAL = inr 0.
Proof.
  unfold modulo, TEST_INTERVAL. destruct (decide (1 = 0)); [lia |].
  by rewrite Z.mod_1_r.
Qed.

Lemma fine_tune_step_emits tg st testg stt i :
  emits fine_tune_event (fine_tune_step tg st testg stt i).
Proof.
  unfold fine_tune_step. apply emits_bind.
  - eapply emits_weaken; [apply fit_generator_emits |].
    intros [] H; simpl in *; try done; try tauto.
    destruct H as (k & Hk & ->). by replace k with 0%nat by lia.
  - intros _. unfold evaluate_generator, report_scalar. emits_auto; simpl; auto.
Qed.

Lemma fine_tune_loop_emits tg st testg stt :
  emits fine_tune_event (fine_tune_loop tg st testg stt).
Proof. apply emits_for_each. intros i _. apply fine_tune_step_emits. Qed.

(** Inversion of a program that returned. *)

Lemma ret_Ok {A} (a b : A) w s s' : ret a w s = (Ok b, s') -> b = a /\ s' = s.
Proof. unfold ret. by intros [= -> ->]. Qed.

Lemma lift_Ok {A} (x : exc + A) w s a s' : lift x w s = (Ok a, s') -> x = inr a /\ s' = s.
Proof. destruct x; simpl; unfold raise, ret; by intros [= -> ->]. Qed.

Lemma foreign_Ok {A} (ask : world -> list event -> exc + A) ev w s a s' :
  foreign ask ev w s = (Ok a, s') ->
  ask w (log s) = inr a /\ s' = record (ev (inr a)) s.
Proof.
  unfold foreign. destruct (ask w (log s)) as [e | a']; simpl; unfold raise, ret; [done |].
  by intros [= -> <-].
Qed.

Lemma foreign_unit_Ok (ask : world -> list event -> option exc) ev w s a s' :
  foreign_unit ask ev w s = (Ok a, s') ->
  ask w (log s) = None /\ s' = record (ev None) s.
Proof.
  unfold foreign_unit. destruct (ask w (log s)) as [e |]; simpl; unfold raise, ret; [done |].
  by intros [= _ <-].
Qed.

Lemma time_Ok w s t s' :
  time w s = (Ok t, s') -> t = w_time w (log s) /\ s' = record (ETime t) s.
Proof. unfold time. by intros [= <- <-]. Qed.

Lemma print_Ok args w s a s' :
  print args w s = (Ok a, s') -> s' = record (EPrint args None) s.
Proof. unfold print. intros H. by apply foreign_unit_Ok in H as [_ ->]. Qed.

Lemma for_each_Ok {A} (xs : list A) (body : A -> M unit) (P : A -> list event -> Prop) w :
  (forall x s s', body x w s = (Ok tt, s') ->
                  exists new, log s' = (log s ++ new)%list /\ P x new) ->
  forall s s', for_each xs body w s = (Ok tt, s') ->
  exists parts, log s' = (log s ++ concat parts)%list /\ Forall2 P xs parts.
Proof.
  intros Hbody. induction xs as [| x xs IH]; intros s s' H; simpl in H.
  - apply ret_Ok in H as [_ ->]. exists []. by rewrite app_nil_r.
  - apply bind_Ok in H as ([] & s1 & H1 & H).
    destruct (Hbody _ _ _ H1) as (n1 & E1 & HP).
    destruct (IH _ _ H) as (parts & E2 & Hparts).
    exists (n1 :: parts). split; [| by constructor].
    by rewrite E2, E1, <- app_assoc.
Qed.

Lemma fit_generator_Ok g steps epochs w s s' :
  fit_generator g steps epochs callbacks w s = (Ok tt, s') ->
  exists fl, log s' = (log s ++ fl)%list /\ fit_log g steps epochs fl /\ heap s' = heap s.
Proof.
  intros H. destruct (spec_run _ _ _ _ _ _ (fit_generator_ok g steps epochs) H)
    as (fl & E & Hfl).
  exists fl. repeat split; [done | by apply Hfl |].
  pose proof (fit_generator_keeps_heap g steps epochs w s) as Hh. by rewrite H in Hh.
Qed.

Lemma fine_tune_step_Ok tg st testg stt i w s s' :
  fine_tune_step tg st testg stt i w s = (Ok tt, s') ->
  exists new, log s' = (log s ++ new)%list /\ round_log tg st testg stt new.
Proof.
  unfold fine_tune_step. rewrite modulo_TEST_INTERVAL. intros H.
  apply bind_Ok in H as ([] & s1 & Hfit & H).
  apply bind_Ok in H as (r & s2 & Hr & H).
  apply lift_Ok in Hr as [[= <-] ->]. simpl in H.
  apply bind_Ok in H as ([loss acc] & s3 & He & H).
  apply foreign_Ok in He as [_ ->].
  unfold report_scalar in H. apply foreign_unit_Ok in H as [_ ->].
  apply fit_generator_Ok in Hfit as (fl & E & Hfl & _).
  eexists. split; [| by exists fl, loss, acc].
  simpl. by rewrite E, <- !app_assoc.
Qed.

Lemma fine_tune_loop_Ok tg st testg stt w s s' :
  fine_tune_loop tg st testg stt w s = (Ok tt, s') ->
  exists rounds,
    log s' = (log s ++ concat rounds)%list /\
    length rounds = 10%nat /\ Forall (round_log tg st testg stt) rounds.
Proof.
  intros H. unfold fine_tune_loop in H.
  eapply (for_each_Ok _ _ (fun _ => round_log tg st testg stt)) in H
    as (rounds & E & Hrounds); [| intros; by eapply fine_tune_step_Ok].
  exists rounds. split; [done |]. split.
  - by rewrite <- (Forall2_length _ _ _ Hrounds).
  - clear E. induction Hrounds; by constructor.
Qed.

Lemma emits_new_events {A} (Q : event -> Prop) (m : M A) w s :
  emits Q m -> Forall Q (new_events s (m w s).2).
Proof.
  intros Hm. destruct (Hm w s) as (new & E & H). by rewrite (new_events_app _ _ _ E).
Qed.

Lemma round_log_project tg st testg stt l :
  round_log tg st testg stt l ->
  saves l = ["weights.01.hdf5"] /\ flows l = [] /\ times l = [] /\ phases l = [PFit 1].
Proof.
  intros (fl & loss & acc & Hfl & ->).
  destruct (fit_log_project _ _ _ _ Hfl) as (E1 & E2 & E3 & E4).
  rewrite saves_app, flows_app, times_app, phases_app, E1, E2, E3, E4. done.
Qed.

Lemma rounds_project tg st testg stt rounds :
  Forall (round_log tg st testg stt) rounds ->
  saves (concat rounds) = replicate (length rounds) "weights.01.hdf5" /\
  flows (concat rounds) = [] /\ times (concat rounds) = [] /\
  phases (concat rounds) = replicate (length rounds) (PFit 1).
Proof.
  induction 1 as [| l rounds Hl _ (IH1 & IH2 & IH3 & IH4)]; [done |].
  destruct (round_log_project _ _ _ _ _ Hl) as (E1 & E2 & E3 & E4). simpl.
  rewrite saves_app, flows_app, times_app, phases_app.
  rewrite E1, E2, E3, E4, IH1, IH2, IH3, IH4. done.
Qed.

(** C8: in the fine-tuning loop every [fit_generator] call is for one
    epoch and every checkpoint goes to the one path [weights.01.hdf5],
    whatever the world does: the checkpoints of the ten turns overwrite each
    other, and a loop that completes has written that path ten times. *)
Theorem fine_tuning_checkpoints_overwrite tg st testg stt w s :
  let res := fine_tune_loop tg st testg stt w s in
  Forall (fun ev => match ev with
                    | EFit _ _ epochs _ => epochs = 1%nat
                    | ESave path _ =>
                        path = format_epoch "weights.{epoch:02d}.hdf5" (0 + 1)
                    | _ => True
                    end) (new_events s res.2) /\
  (forall path, path ∈ saves (new_events s res.2) -> path = "weights.01.hdf5") /\
  (res.1 = Ok tt -> saves (new_events s res.2) = replicate 10 "weights.01.hdf5").
Proof.
  intros res. subst res.
  pose proof (emits_new_events _ _ w s (fine_tune_loop_emits tg st testg stt)) as Hall.
  repeat split.
  - eapply Forall_impl; [exact Hall |]. by intros [].
  - intros path Hin. unfold saves in Hin. apply list_elem_of_omap in Hin as (ev & Hev & E).
    rewrite Forall_forall in Hall. specialize (Hall ev Hev).
    destruct ev; simplify_eq. exact Hall.
  - intros Hok. destruct (fine_tune_loop tg st testg stt w s) as [r s'] eqn:E.
    simpl in *. subst r. apply fine_tune_loop_Ok in E as (rounds & E & Hlen & Hrounds).
    rewrite (new_events_app _ _ _ E).
    destruct (rounds_project _ _ _ _ _ Hrounds) as (-> & _). by rewrite Hlen.
Qed.

Lemma fine_tuning_checkpoints_overwrite_witness :
  saves (new_events initial
           (fine_tune_loop (Generator "./train/" 40 32) 1 (Generator "./test/" 40 32) 1
              (Samples.quiet Samples.tiny 40) initial).2)
  = replicate 10 "weights.01.hdf5".
Proof.
  apply (fine_tuning_checkpoints_overwrite (Generator "./train/" 40 32) 1
           (Generator "./test/" 40 32) 1 (Samples.quiet Samples.tiny 40) initial).
  vm_compute. reflexivity.
Defined.

(** ** The second phase as a whole *)

Lemma step_size_Ok g w s st s' :
  step_size g w s = (Ok st, s') ->
  floordiv (g_n g) (g_batch_size g) = inr st /\ s' = s.
Proof. unfold step_size. apply lift_Ok. Qed.

Lemma make_generator_Ok directory w s g s' :
  _make_generator directory w s = (Ok g, s') ->
  exists n, g = Generator directory n 32 /\ s' = record (flow_event directory (inr n)) s.
Proof.
  unfold _make_generator, flow_from_directory. intros H.
  apply bind_Ok in H as (n & s1 & H1 & H).
  apply foreign_Ok in H1 as [_ ->]. apply ret_Ok in H as [-> ->]. by exists n.
Qed.

Lemma floordiv_32 n st : floordiv n 32 = inr st -> st = n / 32.
Proof. unfold floordiv. destruct (decide (32 = 0)); [lia |]. by intros [= <-]. Qed.

Lemma percent_d_final ms : percent_d "tmnt_koopa_%d.h5" ms = final_path ms.
Proof. reflexivity. Qed.

Lemma save_model_Ok w s s' :
  save_model w s = (Ok tt, s') ->
  exists t ms,
    py_int (t * 1000)%float = inr ms /\
    s' = record (ESave (final_path ms) None) (record (ETime t) s).
Proof.
  unfold save_model. intros H.
  apply bind_Ok in H as (t & s1 & H1 & H). apply time_Ok in H1 as [_ ->].
  apply bind_Ok in H as (ms & s2 & H2 & H). apply lift_Ok in H2 as [H2 ->].
  rewrite percent_d_final in H. unfold save in H.
  apply foreign_unit_Ok in H as [_ ->]. by exists t, ms.
Qed.

Lemma fine_tune_Ok w s s' :
  fine_tune w s = (Ok tt, s') ->
  exists n1 n2 rounds t ms loss acc,
    let train := Generator "./train/" n1 32 in
    let test := Generator "./test/" n2 32 in
    log s' = (log s ++ [flow_event "./train/" (inr n1); flow_event "./test/" (inr n2)]
                ++ concat rounds
                ++ [ETime t; ESave (final_path ms) None;
                    EEvaluate test (n2 / 32) (inr (loss, acc));
                    EPrint [OStr "test loss and accuracy"; OList [loss; acc]] None])%list /\
    length rounds = 10%nat /\
    Forall (round_log train (n1 / 32) test (n2 / 32)) rounds /\
    py_int (t * 1000)%float = inr ms.
Proof.
  unfold fine_tune, make_train_generator, make_test_generator. intros H.
  apply bind_Ok in H as (tg & s1 & H1 & H).
  apply make_generator_Ok in H1 as (n1 & -> & ->).
  apply bind_Ok in H as (st & s2 & H2 & H).
  apply step_size_Ok in H2 as [H2%floordiv_32 ->]. subst st.
  apply bind_Ok in H as (testg & s3 & H3 & H).
  apply make_generator_Ok in H3 as (n2 & -> & ->).
  apply bind_Ok in H as (stt & s4 & H4 & H).
  apply step_size_Ok in H4 as [H4%floordiv_32 ->]. subst stt.
  apply bind_Ok in H as ([] & s5 & H5 & H).
  apply fine_tune_loop_Ok in H5 as (rounds & E5 & Hlen & Hrounds).
  apply bind_Ok in H as ([] & s6 & H6 & H).
  apply save_model_Ok in H6 as (t & ms & Hms & ->).
  unfold final_test in H.
  apply bind_Ok in H as ([loss acc] & s7 & H7 & H).
  apply foreign_Ok in H7 as [_ ->]. apply print_Ok in H as ->.
  exists n1, n2, rounds, t, ms, loss, acc. simpl. repeat split; try done.
  rewrite E5. simpl. rewrite <- !app_assoc. done.
Qed.

(** C2: when the second phase completes, its history is the two
    directory reads, ten turns, and the final save and test.  Every turn is
    one fit of one epoch followed by the evaluation on the generator of
    [./test/] and one report to the sink carrying the two metrics that
    evaluation returned, the test loss and the test accuracy. *)
Theorem test_metrics_reported_every_epoch w s s' :
  fine_tune w s = (Ok tt, s') ->
  exists n_train n_test rounds t ms loss acc,
    let train := Generator "./train/" n_train 32 in
    let test := Generator "./test/" n_test 32 in
    new_events s s'
    = ([flow_event "./train/" (inr n_train); flow_event "./test/" (inr n_test)]
         ++ concat rounds
         ++ [ETime t; ESave (final_path ms) None;
             EEvaluate test (n_test / 32) (inr (loss, acc));
             EPrint [OStr "test loss and accuracy"; OList [loss; acc]] None])%list /\
    length rounds = EPOCHS /\
    Forall (round_log train (n_train / 32) test (n_test / 32)) rounds.
Proof.
  intros H. apply fine_tune_Ok in H
    as (n1 & n2 & rounds & t & ms & loss & acc & E & Hlen & Hrounds & _).
  exists n1, n2, rounds, t, ms, loss, acc. simpl.
  by rewrite (new_events_app _ _ _ E).
Qed.

Lemma test_metrics_reported_every_epoch_witness :
  exists n_train n_test rounds t ms loss acc,
    new_events initial (fine_tune (Samples.quiet Samples.tiny 40) initial).2
    = ([flow_event "./train/" (inr n_train); flow_event "./test/" (inr n_test)]
         ++ concat rounds
         ++ [ETime t; ESave (final_path ms) None;
             EEvaluate (Generator "./test/" n_test 32) (n_test / 32) (inr (loss, acc));
             EPrint [OStr "test loss and accuracy"; OList [loss; acc]] None])%list /\
    length rounds = EPOCHS /\
    Forall (round_log (Generator "./train/" n_train 32) (n_train / 32)
              (Generator "./test/" n_test 32) (n_test / 32)) rounds.
Proof.
  apply (test_metrics_reported_every_epoch (Samples.quiet Samples.tiny 40) initial).
  vm_compute. reflexivity.
Defined.

(** ** Building the model *)

Lemma alloc_Ok kinds w s refs s' :
  alloc kinds w s = (Ok refs, s') ->
  refs = seq (length (heap s)) (length kinds) /\
  s' = State (heap s ++ ((fun k => Layer k true) <$> kinds))%list (log s).
Proof. unfold alloc. by intros [= <- <-]. Qed.

Lemma apply_layer_Ok k x w s y s' :
  apply_layer k x w s = (Ok y, s') ->
  y = Tensor (t_layers x ++ [length (heap s)])%list /\
  s' = State (heap s ++ [Layer k true])%list (log s).
Proof.
  unfold apply_layer. intros H.
  apply bind_Ok in H as (refs & s1 & H1 & H).
  apply alloc_Ok in H1 as [-> ->]. by apply ret_Ok in H as [-> ->].
Qed.

Lemma build_model_Ok w s base model s' :
  build_model w s = (Ok (base, model), s') ->
  exists names,
    let N := length (heap s) in
    let nb := length names in
    w_InceptionV3 w (log s) = inr names /\
    heap s' = (heap s ++ ((fun k => Layer k true) <$> ((Backbone <$> names) ++ head)))%list /\
    log s' = (log s ++ [EInceptionV3 "imagenet" false (inr names)])%list /\
    base = MkModel (Tensor (take 1 (seq N nb))) (Tensor (seq N nb)) /\
    model = MkModel (Tensor (take 1 (seq N nb))) (Tensor (seq N (nb + 5))).
Proof.
  unfold build_model, InceptionV3. intros H.
  apply bind_Ok in H as (bm & s1 & H1 & H).
  apply bind_Ok in H1 as (names & s0 & H0 & H1).
  apply foreign_Ok in H0 as [Hnames ->].
  apply bind_Ok in H1 as (refs & s0' & Ha & H1).
  apply alloc_Ok in Ha as [-> ->]. apply ret_Ok in H1 as [-> ->].
  apply bind_Ok in H as (x1 & s2 & H2 & H). apply apply_layer_Ok in H2 as [-> ->].
  apply bind_Ok in H as (x2 & s3 & H3 & H). apply apply_layer_Ok in H3 as [-> ->].
  apply bind_Ok in H as (x3 & s4 & H4 & H). apply apply_layer_Ok in H4 as [-> ->].
  apply bind_Ok in H as (x4 & s5 & H5 & H). apply apply_layer_Ok in H5 as [-> ->].
  apply bind_Ok in H as (x5 & s6 & H6 & H). apply apply_layer_Ok in H6 as [-> ->].
  apply ret_Ok in H as [[= -> ->] ->].
  exists names. simpl. rewrite !length_app, !length_fmap. simpl.
  repeat split; try done.
  - rewrite fmap_app. simpl. by rewrite <- !app_assoc.
  - unfold Model. do 2 f_equal.
    rewrite <- !app_assoc. simpl.
    replace (length names + 5)%nat with (length names + 1 + 1 + 1 + 1 + 1)%nat by lia.
    rewrite !seq_app. simpl. by rewrite <- !app_assoc, <- !Nat.add_assoc.
Qed.

Lemma lookup_seq_app {X} (h l rest : list X) :
  omap (fun i => (h ++ l ++ rest)%list !! i) (seq (length h) (length l)) = l.
Proof.
  revert h. induction l as [| x l IH]; intros h; [done |]. csimpl.
  rewrite list_lookup_middle by done. csimpl. f_equal.
  specialize (IH (h ++ [x])%list). rewrite length_app in IH. simpl in IH.
  rewrite Nat.add_1_r, <- app_assoc in IH. exact IH.
Qed.

Lemma omap_lookup_fmap {X Y} (f : X -> Y) (h : list X) (refs : list nat) :
  omap (fun ref => f <$> h !! ref) refs = f <$> omap (fun ref => h !! ref) refs.
Proof.
  induction refs as [| r refs IH]; [done |]. csimpl.
  destruct (h !! r); csimpl; by rewrite IH.
Qed.

(** C4: the model keeps the input of the backbone; its layers are the
    layers of the backbone followed by the new head, that is a global average
    pooling layer, three fully-connected relu layers, and last a Dense layer
    of 2 units with softmax activation. *)
Theorem model_has_two_class_softmax_head w s base model s' :
  build_model w s = (Ok (base, model), s') ->
  m_input model = m_input base /\
  layer_kinds model s' = (layer_kinds base s' ++ head)%list /\
  last (layer_kinds model s') = Some (Dense 2 "softmax") /\
  exists names, w_InceptionV3 w (log s) = inr names /\
                layer_kinds base s' = Backbone <$> names.
Proof.
  intros H. apply build_model_Ok in H as (names & Hn & Hheap & _ & -> & ->).
  simpl in *.
  assert (Hbase : omap (fun ref => kind <$> heap s' !! ref)
                    (seq (length (heap s)) (length names)) = Backbone <$> names).
  { rewrite omap_lookup_fmap, Hheap, fmap_app.
    pose proof (lookup_seq_app (heap s) ((fun k => Layer k true) <$> (Backbone <$> names))
                  ((fun k => Layer k true) <$> head)) as L.
    rewrite !length_fmap in L. rewrite L, <- !list_fmap_compose. reflexivity. }
  assert (Hall : omap (fun ref => kind <$> heap s' !! ref)
                    (seq (length (heap s)) (length names + 5))
                 = ((Backbone <$> names) ++ head)%list).
  { rewrite omap_lookup_fmap, Hheap.
    pose proof (lookup_seq_app (heap s)
                  ((fun k => Layer k true) <$> ((Backbone <$> names) ++ head)%list) []) as L.
    rewrite app_nil_r, length_fmap, length_app, length_fmap in L. simpl in L.
    rewrite L, <- list_fmap_compose. exact (list_fmap_id _). }
  unfold layer_kinds, m_layers. simpl. rewrite Hall, Hbase.
  repeat split; [by rewrite last_app | by exists names].
Qed.

Lemma model_has_two_class_softmax_head_witness :
  let res := build_model (Samples.quiet Samples.tiny 40) initial in
  last (layer_kinds (match res.1 with Ok p => p.2 | Raise _ => MkModel (Tensor []) (Tensor []) end)
          res.2)
  = Some (Dense 2 "softmax").
Proof.
  eapply (model_has_two_class_softmax_head (Samples.quiet Samples.tiny 40) initial).
  vm_compute. reflexivity.
Defined.

(** ** Freezing and unfreezing layers *)

Lemma set_trainable_effect b refs w s :
  for_each refs (set_trainable b) w s
  = (Ok tt, State (foldl (fun h ref => alter (fun l => Layer (kind l) b) ref h)
                         (heap s) refs) (log s)).
Proof.
  revert s. induction refs as [| r refs IH]; intros [h lg]; [done |].
  simpl. unfold bind at 1. simpl. by rewrite IH.
Qed.

Lemma foldl_alter_lookup b refs (h : list layer) i :
  foldl (fun h ref => alter (fun l => Layer (kind l) b) ref h) h refs !! i
  = if decide (i ∈ refs) then (fun l => Layer (kind l) b) <$> h !! i else h !! i.
Proof.
  revert h. induction refs as [| r refs IH]; intros h; simpl; [done |].
  rewrite IH. destruct (decide (i = r)) as [-> | Hne].
  - rewrite list_lookup_alter_eq, (decide_True (P := r ∈ r :: refs)) by (by left).
    destruct (decide (r ∈ refs)); [by destruct (h !! r) | done].
  - rewrite list_lookup_alter_ne by done.
    destruct (decide (i ∈ refs)) as [Hin | Hin].
    + by rewrite (decide_True (P := i ∈ r :: refs)) by (by right).
    + rewrite (decide_False (P := i ∈ r :: refs)); [done |].
      by intros [? | ?]%elem_of_cons.
Qed.

Lemma omap_ext_fmap {X Y} (f : X -> option Y) (g : X -> Y) (l : list X) :
  (forall x, x ∈ l -> f x = Some (g x)) -> omap f l = g <$> l.
Proof.
  induction l as [| x l IH]; intros H; [done |]. csimpl.
  rewrite (H x) by (by left). csimpl. f_equal. apply IH. intros y Hy. apply H. by right.
Qed.

Lemma foldl_alter_length b refs (h : list layer) :
  length (foldl (fun h ref => alter (fun l => Layer (kind l) b) ref h) h refs) = length h.
Proof.
  revert h. induction refs as [| r refs IH]; intros h; simpl; [done |].
  by rewrite IH, length_alter.
Qed.

Lemma flags_phase1 nb (kinds : list layer_kind) :
  length kinds = (nb + 5)%nat ->
  omap (fun ref =>
          trainable <$> foldl (fun h ref => alter (fun l => Layer (kind l) false) ref h)
                          ((fun k => Layer k true) <$> kinds) (seq 0 nb) !! ref)
       (seq 0 (nb + 5))
  = phase1_flags nb.
Proof.
  intros Hlen. apply omap_ext_fmap. intros i Hi%elem_of_seq.
  rewrite foldl_alter_lookup, list_lookup_fmap.
  destruct (lookup_lt_is_Some_2 kinds i) as [k Hk]; [lia |]. rewrite Hk.
  case_decide as Hin; rewrite elem_of_seq in Hin; simpl; f_equal;
    symmetry; [apply bool_decide_eq_false | apply bool_decide_eq_true]; lia.
Qed.

Lemma flags_phase2 nb (h : list layer) :
  length h = (nb + 5)%nat ->
  omap (fun ref =>
          trainable <$>
            foldl (fun h ref => alter (fun l => Layer (kind l) true) ref h)
              (foldl (fun h ref => alter (fun l => Layer (kind l) false) ref h) h
                 (take 249 (seq 0 (nb + 5))))
              (drop 249 (seq 0 (nb + 5))) !! ref)
       (seq 0 (nb + 5))
  = phase2_flags nb.
Proof.
  intros Hlen. apply omap_ext_fmap. intros i Hi%elem_of_seq.
  rewrite !foldl_alter_lookup, take_seq, drop_seq.
  destruct (lookup_lt_is_Some_2 h i) as [l Hl]; [lia |]. rewrite Hl.
  repeat case_decide;
    repeat match goal with H : context [_ ∈ seq _ _] |- _ => rewrite elem_of_seq in H end;
    simpl; f_equal; try done; exfalso; lia.
Qed.

(** ** The whole run, when it completes *)

Lemma print_layers_Ok base w s s' :
  print_layers base w s = (Ok tt, s') ->
  exists prints, log s' = (log s ++ prints)%list /\ Forall layer_print prints /\
                 heap s' = heap s.
Proof.
  intros H.
  assert (He : emits layer_print (print_layers base)).
  { unfold print_layers. emits_auto. done. }
  assert (Hk : keeps_heap (print_layers base)).
  { unfold print_layers, print. repeat keeps_heap_step. }
  destruct (spec_run _ _ _ _ _ _ He H) as (prints & E & Hp).
  exists prints. repeat split; try done. specialize (Hk w s). by rewrite H in Hk.
Qed.

Lemma train_head_Ok w s s' :
  train_head w s = (Ok tt, s') ->
  exists n fl,
    log s' = (log s ++ flow_event "./train/" (inr n) :: fl)%list /\
    fit_log (Generator "./train/" n 32) (n / 32) 50 fl /\ heap s' = heap s.
Proof.
  unfold train_head, make_train_generator. intros H.
  apply bind_Ok in H as (tg & s1 & H1 & H).
  apply make_generator_Ok in H1 as (n & -> & ->).
  apply bind_Ok in H as (st & s2 & H2 & H).
  apply step_size_Ok in H2 as [H2%floordiv_32 ->]. subst st.
  apply fit_generator_Ok in H as (fl & E & Hfl & Hh).
  exists n, fl. repeat split; try done. rewrite E. simpl. by rewrite <- app_assoc.
Qed.

Lemma run_Ok w s' :
  run w = (Ok tt, s') ->
  exists names n0 fl prints n1 n2 rounds t ms loss acc,
    let nb := length names in
    let train := Generator "./train/" n1 32 in
    let test := Generator "./test/" n2 32 in
    w_InceptionV3 w [] = inr names /\
    log s' = ([EInceptionV3 "imagenet" false (inr names); compile_head nb;
               flow_event "./train/" (inr n0)]
              ++ fl ++ prints
              ++ [compile_fine_tune nb;
                  flow_event "./train/" (inr n1); flow_event "./test/" (inr n2)]
              ++ concat rounds
              ++ [ETime t; ESave (final_path ms) None;
                  EEvaluate test (n2 / 32) (inr (loss, acc));
                  EPrint [OStr "test loss and accuracy"; OList [loss; acc]] None])%list /\
    fit_log (Generator "./train/" n0 32) (n0 / 32) 50 fl /\
    Forall layer_print prints /\
    length rounds = 10%nat /\
    Forall (round_log train (n1 / 32) test (n2 / 32)) rounds /\
    py_int (t * 1000)%float = inr ms.
Proof.
  unfold run, main. intros H.
  apply bind_Ok in H as ([base model] & s1 & H1 & H).
  apply build_model_Ok in H1 as (names & Hnames & Hheap1 & Hlog1 & -> & ->).
  simpl in Hnames, Hheap1, Hlog1.
  apply bind_Ok in H as ([] & s2 & H2 & H).
  unfold freeze_backbone, m_layers in H2. simpl in H2.
  apply bind_Ok in H2 as ([] & s1' & Hf & H2).
  rewrite set_trainable_effect in Hf. injection Hf as <-.
  unfold compile in H2. apply foreign_unit_Ok in H2 as [_ ->].
  unfold trainable_flags, m_layers in H. simpl in H.
  rewrite Hheap1, flags_phase1 in H
    by (rewrite length_app, length_fmap; reflexivity).
  apply bind_Ok in H as ([] & s3 & H3 & H).
  apply train_head_Ok in H3 as (n0 & fl & E3 & Hfl & Hh3).
  apply bind_Ok in H as ([] & s4 & H4 & H).
  apply print_layers_Ok in H4 as (prints & E4 & Hprints & Hh4).
  apply bind_Ok in H as ([] & s5 & H5 & H).
  unfold unfreeze_top, m_layers in H5. simpl in H5.
  apply bind_Ok in H5 as ([] & s4' & Hf1 & H5).
  rewrite set_trainable_effect in Hf1. injection Hf1 as <-.
  apply bind_Ok in H5 as ([] & s4'' & Hf2 & H5).
  rewrite set_trainable_effect in Hf2. injection Hf2 as <-.
  unfold compile in H5. apply foreign_unit_Ok in H5 as [_ ->].
  unfold trainable_flags, m_layers in H. simpl in H.
  rewrite flags_phase2 in H.
  2:{ rewrite Hh4, Hh3. simpl. rewrite foldl_alter_length, length_fmap, length_app,
        length_fmap. reflexivity. }
  apply fine_tune_Ok in H
    as (n1 & n2 & rounds & t & ms & loss & acc & E & Hlen & Hrounds & Hms).
  exists names, n0, fl, prints, n1, n2, rounds, t, ms, loss, acc.
  simpl in *. repeat split; try done.
  rewrite E, E4, E3. simpl. rewrite Hlog1. simpl. rewrite <- !app_assoc. done.
Qed.

Lemma prints_project prints :
  Forall layer_print prints ->
  saves prints = [] /\ flows prints = [] /\ times prints = [] /\ phases prints = [].
Proof.
  intros H. repeat split; apply omap_nil_Forall;
    (eapply Forall_impl; [exact H |]); by intros [].
Qed.

(** C3: a run that completes compiles twice and fits after each compile.
    At the first compile (rmsprop) every backbone layer is frozen and the
    five head layers are trainable, and one fit of 50 epochs follows.  At the
    second compile (SGD, learning rate 0.0001, below the 0.001 of rmsprop)
    the layers of index below 249 are frozen and those from 249 on are
    trainable, and ten fits of one epoch follow. *)
Theorem two_phase_training w s' :
  run w = (Ok tt, s') ->
  exists names,
    let nb := length names in
    w_InceptionV3 w [] = inr names /\
    phases (log s')
    = ([PCompile (OptimizerName "rmsprop") (phase1_flags nb); PFit 50;
        PCompile (SGD 0.0001 0.9) (phase2_flags nb)] ++ replicate 10 (PFit 1))%list /\
    (forall i, (i < nb)%nat -> phase1_flags nb !! i = Some false) /\
    (forall i, (nb <= i < nb + 5)%nat -> phase1_flags nb !! i = Some true) /\
    (forall i, (i < nb + 5)%nat ->
               phase2_flags nb !! i = Some (bool_decide (249 <= i)%nat)) /\
    (0.0001 <? rmsprop_default_lr)%float = true.
Proof.
  intros H. apply run_Ok in H
    as (names & n0 & fl & prints & n1 & n2 & rounds & t & ms & loss & acc
        & Hn & E & Hfl & Hprints & Hlen & Hrounds & _).
  exists names. simpl. split; [done |]. split; [| repeat split].
  - rewrite E.
    destruct (fit_log_project _ _ _ _ Hfl) as (_ & _ & _ & P1).
    destruct (prints_project _ Hprints) as (_ & _ & _ & P2).
    destruct (rounds_project _ _ _ _ _ Hrounds) as (_ & _ & _ & P3).
    rewrite !phases_app, P1, P2, P3, Hlen. reflexivity.
  - intros i Hi. unfold phase1_flags.
    rewrite list_lookup_fmap, lookup_seq_lt by lia. simpl.
    f_equal. apply bool_decide_eq_false. lia.
  - intros i Hi. unfold phase1_flags.
    rewrite list_lookup_fmap, lookup_seq_lt by lia. simpl.
    f_equal. apply bool_decide_eq_true. lia.
  - intros i Hi. unfold phase2_flags.
    by rewrite list_lookup_fmap, lookup_seq_lt by lia.
Qed.

Lemma two_phase_training_witness :
  phases (log (run (Samples.quiet Samples.inception 40)).2)
  = ([PCompile (OptimizerName "rmsprop") (phase1_flags 311); PFit 50;
      PCompile (SGD 0.0001 0.9) (phase2_flags 311)] ++ replicate 10 (PFit 1))%list.
Proof.
  destruct (two_phase_training (Samples.quiet Samples.inception 40)
              (run (Samples.quiet Samples.inception 40)).2) as (names & Hn & E & _).
  - vm_compute. reflexivity.
  - injection Hn as <-. exact E.
Defined.

(** ** Files *)

Lemma emits_compile (Q : event -> Prop) m opt loss metrics :
  (forall flags x, Q (ECompile opt loss metrics flags x)) ->
  emits Q (compile m opt loss metrics).
Proof.
  intros HQ w s. unfold compile.
  exact (emits_foreign_unit Q w_compile
           (ECompile opt loss metrics (trainable_flags m s)) (HQ _) w s).
Qed.

Lemma fit_event_file g steps epochs ev :
  (epochs <= 50)%nat -> fit_event g steps epochs ev -> file_event ev.
Proof.
  intros Hle. destruct ev; simpl; try done.
  intros (k & Hk & ->). left. exists (Z.of_nat k + 1). split; [lia | done].
Qed.

Lemma main_emits_file_events : emits file_event main.
Proof.
  unfold main, build_model, InceptionV3, apply_layer,
    freeze_backbone, train_head, print_layers, unfreeze_top, fine_tune,
    make_train_generator, make_test_generator, _make_generator, flow_from_directory,
    step_size, fine_tune_loop, fine_tune_step, save_model, final_test,
    evaluate_generator, report_scalar, save.
  repeat first
    [ apply emits_compile; intros ? ?
    | eapply emits_weaken;
        [apply fit_generator_emits | intros ?; apply fit_event_file; lia]
    | emits_step ]; simpl; try done; auto.
  rewrite percent_d_final. right. by eexists.
Qed.

(** C6: whatever the world does, the script reads no directory but
    [./train/] and [./test/] and saves to no path but a checkpoint
    [weights.NN.hdf5] and [tmnt_koopa_<ms>.h5].  A run that completes has read
    [./train/] twice and [./test/] once, has read the clock once, and has
    saved the checkpoints of epochs 1 to 50, then ten times the checkpoint of
    epoch 1, then once the final model under the clock reading times 1000,
    truncated to an integer. *)
Theorem files_read_and_written w :
  Forall file_event (log (run w).2) /\
  (forall s', run w = (Ok tt, s') ->
     flows (log s') = ["./train/"; "./train/"; "./test/"] /\
     exists t ms,
       times (log s') = [t] /\ py_int (t * 1000)%float = inr ms /\
       saves (log s')
       = (((fun k => checkpoint (Z.of_nat k + 1)) <$> seq 0 50)
            ++ replicate 10 "weights.01.hdf5" ++ [final_path ms])%list).
Proof.
  split.
  - exact (emits_new_events _ _ w initial main_emits_file_events).
  - intros s' H. apply run_Ok in H
      as (names & n0 & fl & prints & n1 & n2 & rounds & t & ms & loss & acc
          & _ & E & Hfl & Hprints & Hlen & Hrounds & Hms).
    destruct (fit_log_project _ _ _ _ Hfl) as (S1 & F1 & T1 & _).
    destruct (prints_project _ Hprints) as (S2 & F2 & T2 & _).
    destruct (rounds_project _ _ _ _ _ Hrounds) as (S3 & F3 & T3 & _).
    rewrite Hlen in S3. split; [| exists t, ms; repeat split; [| done |]].
    + rewrite E, !flows_app, F1, F2, F3. reflexivity.
    + rewrite E, !times_app, T1, T2, T3. reflexivity.
    + rewrite E, !saves_app, S1, S2, S3. reflexivity.
Qed.

Lemma files_read_and_written_witness :
  flows (log (run (Samples.quiet Samples.tiny 40)).2)
  = ["./train/"; "./train/"; "./test/"] /\
  exists t ms,
    times (log (run (Samples.quiet Samples.tiny 40)).2) = [t] /\
    py_int (t * 1000)%float = inr ms /\
    saves (log (run (Samples.quiet Samples.tiny 40)).2)
    = (((fun k => checkpoint (Z.of_nat k + 1)) <$> seq 0 50)
         ++ replicate 10 "weights.01.hdf5" ++ [final_path ms])%list.
Proof.
  apply (files_read_and_written (Samples.quiet Samples.tiny 40)).
  vm_compute. reflexivity.
Defined.

(** ** Step counts *)

Lemma make_generator_run directory w s n :
  w_flow_from_directory w (log s) directory = inr n ->
  _make_generator directory w s
  = (Ok (Generator directory n 32), record (flow_event directory (inr n)) s).
Proof.
  intros H. unfold _make_generator, flow_from_directory, bind, foreign.
  by rewrite H.
Qed.

Lemma step_size_run n directory w s :
  step_size (Generator directory n 32) w s = (Ok (n / 32), s).
Proof. done. Qed.

Lemma second_phase_steps n1 n2 :
  emits (steps_event n1 n2)
    (fine_tune_loop (Generator "./train/" n1 32) (n1 / 32)
                    (Generator "./test/" n2 32) (n2 / 32) ;;
     save_model ;;
     final_test (Generator "./test/" n2 32) (n2 / 32)).
Proof.
  unfold fine_tune_loop, fine_tune_step, save_model, final_test,
    evaluate_generator, report_scalar, save.
  repeat first
    [ eapply emits_weaken;
        [apply fit_generator_emits | intros []; simpl; try done; tauto]
    | emits_step ]; simpl; done.
Qed.

Lemma fit_generator_first g steps epochs :
  spec (fit_generator g steps epochs callbacks) (fun _ new =>
    exists x rest, new = EFit g steps epochs x :: rest).
Proof.
  unfold fit_generator, fit_begin. eapply spec_weaken.
  - refine (spec_bind _ _ _ (fun _ _ _ => True) (spec_foreign_unit _ _) (fun _ => _)).
    eapply spec_weaken; [| by intros].
    apply (emits_for_each (fit_event g steps epochs)). intros epoch Hin.
    apply run_epoch_emits. apply elem_of_seq in Hin. lia.
  - intros r new [(e & -> & x & -> & _) | (a & n1 & n2 & -> & (x & -> & _) & _)];
      by eauto.
Qed.

(** C9: the step count of a generator is the floor of its image count
    divided by 32.  The first phase asks [fit_generator] for that many steps
    per epoch, and every fit and every evaluation of the second phase is
    asked for the floor of the count of its own directory divided by 32; for
    a directory of fewer than 32 images that is zero steps. *)
Theorem step_counts_floor_division w s n_train n_test :
  w_flow_from_directory w (log s) "./train/" = inr n_train ->
  w_flow_from_directory w (log s ++ [flow_event "./train/" (inr n_train)])%list "./test/"
  = inr n_test ->
  (exists r rest,
     new_events s (train_head w s).2
     = flow_event "./train/" (inr n_train)
         :: EFit (Generator "./train/" n_train 32) (n_train / 32) 50 r :: rest) /\
  (exists rest,
     new_events s (fine_tune w s).2
     = flow_event "./train/" (inr n_train) :: flow_event "./test/" (inr n_test) :: rest /\
     Forall (steps_event n_train n_test) rest) /\
  floordiv n_train 32 = inr (n_train / 32) /\
  32 * (n_train / 32) <= n_train < 32 * (n_train / 32) + 32 /\
  (0 <= n_train < 32 -> n_train / 32 = 0) /\
  (0 <= n_test < 32 -> n_test / 32 = 0).
Proof.
  intros Htrain Htest. repeat split.
  - unfold train_head, make_train_generator, bind at 1.
    rewrite (make_generator_run _ _ _ _ Htrain).
    unfold bind at 1. rewrite step_size_run.
    destruct (fit_generator_first (Generator "./train/" n_train 32) (n_train / 32) 50 w
                (record (flow_event "./train/" (inr n_train)) s))
      as (new & E & x & rest & ->).
    exists x, rest. erewrite new_events_app; [done |].
    rewrite E. simpl. by rewrite <- app_assoc.
  - unfold fine_tune, make_train_generator, make_test_generator, bind at 1.
    rewrite (make_generator_run _ _ _ _ Htrain).
    unfold bind at 1. rewrite step_size_run.
    unfold bind at 1. rewrite (make_generator_run "./test/" w _ n_test) by exact Htest.
    unfold bind at 1. rewrite step_size_run.
    destruct (second_phase_steps n_train n_test w
                (record (flow_event "./test/" (inr n_test))
                   (record (flow_event "./train/" (inr n_train)) s)))
      as (rest & E & Hrest).
    exists rest. split; [| done].
    erewrite new_events_app; [done |]. rewrite E. simpl. by rewrite <- !app_assoc.
  - pose proof (Z.mul_div_le n_train 32). lia.
  - pose proof (Z.mod_pos_bound n_train 32). pose proof (Z.div_mod n_train 32). lia.
  - intros H. by apply Z.div_small.
  - intros H. by apply Z.div_small.
Qed.

Lemma step_counts_floor_division_witness :
  exists r rest,
    new_events initial (train_head (Samples.quiet Samples.tiny 10) initial).2
    = flow_event "./train/" (inr 10)
        :: EFit (Generator "./train/" 10 32) 0 50 r :: rest.
Proof.
  destruct (step_counts_floor_division (Samples.quiet Samples.tiny 10) initial 10 10
              eq_refl eq_refl) as (H & _).
  exact H.
Defined.

(** ** Failures propagate *)

Lemma spec_and {A} (m : M A) (P Q : result A -> list event -> Prop) :
  spec m P -> spec m Q -> spec m (fun r new => P r new /\ Q r new).
Proof.
  intros HP HQ w s.
  destruct (HP w s) as (n1 & E1 & H1). destruct (HQ w s) as (n2 & E2 & H2).
  rewrite E1 in E2. apply app_inv_head in E2 as <-. by exists n1.
Qed.

Lemma uncaught_ret {A} (a : A) : uncaught (ret a).
Proof.
  eapply spec_weaken; [apply spec_ret |].
  intros r new [-> ->]. simpl. constructor.
Qed.

Lemma uncaught_lift {A} (x : exc + A) : uncaught (lift x).
Proof.
  eapply spec_weaken; [apply spec_lift |].
  intros r new [-> H]. destruct x; subst r; simpl; [left |]; constructor.
Qed.

Lemma uncaught_bind {A B} (m : M A) (k : A -> M B) :
  uncaught m -> (forall a, uncaught (k a)) -> uncaught (bind m k).
Proof.
  intros Hm Hk.
  eapply spec_weaken; [exact (spec_bind m k propagates (fun _ => propagates) Hm Hk) |].
  intros r new [(e & -> & H) | (a & n1 & n2 & -> & H1 & H2)]; [exact H |].
  simpl in H1. destruct r as [b | e]; simpl in *.
  - by apply Forall_app.
  - destruct H2 as [H2 | (pre & ev & -> & Hpre & Hev)].
    + left. by apply Forall_app.
    + right. exists (n1 ++ pre)%list, ev. rewrite app_assoc.
      repeat split; [by apply Forall_app | done].
Qed.

Lemma uncaught_for_each {A} (xs : list A) (body : A -> M unit) :
  (forall x, x ∈ xs -> uncaught (body x)) -> uncaught (for_each xs body).
Proof.
  induction xs as [| x xs IH]; intros Hbody; simpl.
  - apply uncaught_ret.
  - apply uncaught_bind; [apply Hbody; left |].
    intros _. apply IH. intros y Hy. apply Hbody. by right.
Qed.

Lemma uncaught_foreign {A} (ask : world -> list event -> exc + A) ev :
  (forall x, failed (ev x) = match x with inl e => Some e | inr _ => None end) ->
  uncaught (foreign ask ev).
Proof.
  intros Hev. eapply spec_weaken; [apply spec_foreign |].
  intros r new (x & -> & ->). specialize (Hev x). destruct x as [e | a]; simpl.
  - right. by exists [], (ev (inl e)).
  - constructor; [| done]. unfold swallowed. by rewrite Hev.
Qed.

Lemma uncaught_foreign_unit (ask : world -> list event -> option exc) ev :
  (forall x, failed (ev x) = x) -> uncaught (foreign_unit ask ev).
Proof.
  intros Hev. eapply spec_weaken; [apply spec_foreign_unit |].
  intros r new (x & -> & ->). specialize (Hev x). destruct x as [e |]; simpl.
  - right. by exists [], (ev (Some e)).
  - constructor; [| done]. unfold swallowed. by rewrite Hev.
Qed.

Lemma uncaught_compile m opt loss metrics : uncaught (compile m opt loss metrics).
Proof.
  intros w s. unfold compile.
  exact (uncaught_foreign_unit w_compile
           (ECompile opt loss metrics (trainable_flags m s)) (fun _ => eq_refl) w s).
Qed.

Lemma uncaught_time : uncaught time.
Proof.
  eapply spec_weaken; [apply spec_time |].
  intros r new (t & -> & ->). simpl. by constructor.
Qed.

Lemma uncaught_print args : uncaught (print args).
Proof.
  apply uncaught_foreign_unit. by intros.
Qed.

Lemma uncaught_alloc kinds : uncaught (alloc kinds).
Proof.
  eapply spec_weaken; [apply spec_alloc |].
  intros r new [-> [refs ->]]. simpl. constructor.
Qed.

Lemma uncaught_set_trainable b ref : uncaught (set_trainable b ref).
Proof.
  eapply spec_weaken; [apply spec_set_trainable |].
  intros r new [-> ->]. simpl. constructor.
Qed.

Lemma uncaught_get_name ref : uncaught (get_name ref).
Proof.
  eapply spec_weaken; [apply spec_get_name |].
  intros r new [-> [n ->]]. simpl. constructor.
Qed.

Ltac uncaught_step :=
  match goal with
  | |- uncaught (bind _ _) => apply uncaught_bind; [| intros ?]
  | |- uncaught (ret _) => apply uncaught_ret
  | |- uncaught (lift _) => apply uncaught_lift
  | |- uncaught (alloc _) => apply uncaught_alloc
  | |- uncaught (set_trainable _ _) => apply uncaught_set_trainable
  | |- uncaught (get_name _) => apply uncaught_get_name
  | |- uncaught (print _) => apply uncaught_print
  | |- uncaught time => apply uncaught_time
  | |- uncaught (compile _ _ _ _) => apply uncaught_compile
  | |- uncaught (foreign _ _) => apply uncaught_foreign; by intros []
  | |- uncaught (foreign_unit _ _) => apply uncaught_foreign_unit; by intros
  | |- uncaught (for_each _ _) => apply uncaught_for_each; intros ? ?
  | |- uncaught (if ?c then _ else _) => destruct c
  | |- uncaught (let (_, _) := ?p in _) => destruct p
  end.

Lemma uncaught_on_batch_end batch logs : uncaught (on_batch_end batch logs).
Proof.
  unfold on_batch_end.
  match goal with |- uncaught (try_except_Exception ?b _) => set (body := b) end.
  assert (Hu : uncaught body) by (subst body; unfold report_scalar; repeat uncaught_step).
  assert (He : emits (fun ev => is_train_report ev = true) body)
    by (subst body; unfold report_scalar; emits_auto; done).
  intros w s. unfold try_except_Exception.
  destruct (spec_and _ _ _ Hu He w s) as (n1 & E1 & Hp & Hbe).
  destruct (body w s) as [[a | e] s1]; simpl in *; [by exists n1 |].
  destruct (isinstance_Exception e) eqn:Hi; [| by exists n1].
  assert (Hn1 : Forall swallowed n1).
  { destruct Hp as [Hall | (pre & ev & -> & Hpre & Hf)]; [done |].
    apply Forall_app. split; [done |]. constructor; [| done].
    unfold swallowed. rewrite Hf. split; [| done].
    apply Forall_app in Hbe as [_ Hev]. exact (Forall_inv Hev). }
  unfold print, foreign_unit.
  exists (n1 ++ [EPrint [OExc e] (w_print w (log s1) [OExc e])])%list.
  destruct (w_print w (log s1) [OExc e]) as [e' |]; simpl;
    (split; [by rewrite E1, <- app_assoc |]).
  - right. by exists n1, (EPrint [OExc e] (Some e')).
  - apply Forall_app. split; [done | by constructor].
Qed.

Lemma uncaught_fit_generator g steps epochs :
  uncaught (fit_generator g steps epochs callbacks).
Proof.
  unfold fit_generator, fit_begin, run_epoch, run_batch, train_batch, callbacks.
  repeat uncaught_step;
    repeat match goal with
           | H : _ ∈ _ :: _ |- _ => apply elem_of_cons in H as [-> | H]
           | H : _ ∈ [] |- _ => by apply elem_of_nil in H
           end; simpl.
  - apply uncaught_on_batch_end.
  - apply uncaught_ret.
  - apply uncaught_ret.
  - unfold save. uncaught_step.
Qed.

Lemma uncaught_main : uncaught main.
Proof.
  unfold main, build_model, InceptionV3, apply_layer,
    freeze_backbone, train_head, print_layers, unfreeze_top, fine_tune,
    make_train_generator, make_test_generator, _make_generator, flow_from_directory,
    step_size, fine_tune_loop, fine_tune_step, save_model, final_test,
    evaluate_generator, report_scalar, save.
  repeat first [apply uncaught_fit_generator | uncaught_step].
Qed.

(** C7: outside [on_batch_end] nothing is caught.  In every world, a
    foreign call of the run that raised [e] is either a report made by
    [on_batch_end] raising an instance of Exception, or it is the last thing
    the script did and the run ends with [e] uncaught. *)
Theorem failures_propagate w pre ev post e :
  log (run w).2 = (pre ++ ev :: post)%list ->
  failed ev = Some e ->
  (is_train_report ev = true /\ isinstance_Exception e = true) \/
  (post = [] /\ (run w).1 = Raise e).
Proof.
  intros Hlog Hf. destruct (uncaught_main w initial) as (new & E & Hp).
  fold (run w) in E, Hp. simpl in E. rewrite E in Hlog. subst new.
  assert (Hev : forall l, Forall swallowed l -> ev ∈ l ->
                          is_train_report ev = true /\ isinstance_Exception e = true).
  { intros l Hall Hin. rewrite Forall_forall in Hall. specialize (Hall ev Hin).
    unfold swallowed in Hall. by rewrite Hf in Hall. }
  assert (Hin : ev ∈ (pre ++ ev :: post)%list) by (apply elem_of_app; right; left).
  destruct (run w).1 as [[] | e']; simpl in Hp.
  - left. by eapply Hev.
  - destruct Hp as [Hall | (pre' & ev' & E' & Hpre' & Hf')]; [left; by eapply Hev |].
    destruct (decide (post = [])) as [-> | Hne].
    + apply app_inj_tail in E' as [_ <-]. right. split; [done |]. congruence.
    + left. apply (Hev pre' Hpre').
      destruct (exists_last Hne) as (post' & x & ->).
      rewrite app_comm_cons, app_assoc in E'.
      apply app_inj_tail in E' as [<- _]. apply elem_of_app. right. left.
Qed.

(** A disk that fills up at the third checkpoint. *)
Lemma failures_propagate_witness :
  [] = @nil event /\ (run (Samples.disk_full Samples.tiny 40)).1 = Raise OSError.
Proof.
  destruct (failures_propagate (Samples.disk_full Samples.tiny 40)
              (removelast (log (run (Samples.disk_full Samples.tiny 40)).2))
              (ESave "weights.03.hdf5" (Some OSError)) [] OSError) as [[H _] | H].
  - vm_compute. reflexivity.
  - reflexivity.
  - discriminate H.
  - exact H.
Defined.


(** Two more ways for the run to end: a missing data directory, and a
    training step that runs out of memory.  Neither is caught. *)
Example missing_directory_ends_the_run :
  let (r, s) := run (Samples.no_train_directory Samples.tiny) in
  r = Raise OSError /\ last (log s) = Some (flow_event "./train/" (inl OSError)).
Proof. vm_compute. split; reflexivity. Qed.

Example out_of_memory_ends_the_run :
  let (r, s) := run (Samples.out_of_memory Samples.tiny 40) in
  r = Raise MemoryError /\ last (log s) = Some (EBatch (inl MemoryError)) /\
  saves (log s) = ["weights.01.hdf5"].
Proof. vm_compute. repeat split; reflexivity. Qed.


(** * Further properties of the script *)

(** ** What [on_batch_end] sends *)

(** X1: whatever the logs hold and whatever the world does,
    [on_batch_end] sends nothing, or only the train loss, or the train loss
    and then the train accuracy; the accuracy is sent only after the sink
    accepted the loss, and the values are the floats of the logs' entries. *)
Theorem on_batch_end_reports_in_order batch logs w s :
  let calls := report_calls (new_events s (on_batch_end batch logs w s).2) in
  calls = [] \/
  (exists v l r, logs !! "loss" = Some v /\ py_float v = inr l /\
                 calls = [([OStr "Train loss"; OFloat l], r)]) \/
  (exists v l v' a r,
     logs !! "loss" = Some v /\ py_float v = inr l /\
     logs !! "categorical_accuracy" = Some v' /\ py_float v' = inr a /\
     calls = [([OStr "Train loss"; OFloat l], None);
              ([OStr "Train accuracy"; OFloat a], r)]).
Proof.
  cbv zeta.
  cbv beta iota delta [on_batch_end try_except_Exception bind lift lift_unit ret raise
                       report_scalar foreign_unit getitem print].
  destruct (logs !! "loss") as [v |] eqn:Hv; simpl; [| left; handler_leaf].
  destruct (py_float v) as [e | l] eqn:Hl; simpl.
  { left. handler_leaf. }
  destruct (w_report_scalar w (log s) [OStr "Train loss"; OFloat l]) as [e |] eqn:H1; simpl.
  { right. left. exists v, l, (Some e). repeat split; try done.
    handler_leaf. }
  destruct (logs !! "categorical_accuracy") as [v' |] eqn:Hv'; simpl.
  2:{ right. left. exists v, l, None. repeat split; try done. handler_leaf. }
  destruct (py_float v') as [e | a] eqn:Ha; simpl.
  { right. left. exists v, l, None. repeat split; try done.
    handler_leaf. }
  right. right.
  destruct (w_report_scalar w _ [OStr "Train accuracy"; OFloat a]) as [e |] eqn:H2; simpl.
  - exists v, l, v', a, (Some e). repeat split; try done.
    handler_leaf.
  - exists v, l, v', a, None. repeat split; try done. by new_events_leaf.
Qed.

(** ** A failing sink does not stop a fit *)

Lemma on_batch_end_returns batch logs w s :
  sink_fails_softly w -> prints_succeed w -> floatable logs ->
  (on_batch_end batch logs w s).1 = Ok tt.
Proof.
  intros Hsink Hprint Hlogs.
  cbv beta iota delta [on_batch_end try_except_Exception bind lift lift_unit ret raise
                       report_scalar foreign_unit getitem print].
  destruct (logs !! "loss") as [v |] eqn:Hv; simpl; [| by rewrite Hprint].
  destruct (py_float v) as [e | l] eqn:Hl; simpl.
  { by rewrite (Hlogs _ _ _ Hv Hl), Hprint. }
  destruct (w_report_scalar w (log s) [OStr "Train loss"; OFloat l]) as [e |] eqn:H1; simpl.
  { by rewrite (Hsink _ _ _ H1), Hprint. }
  destruct (logs !! "categorical_accuracy") as [v' |] eqn:Hv'; simpl;
    [| by rewrite Hprint].
  destruct (py_float v') as [e | a] eqn:Ha; simpl.
  { by rewrite (Hlogs _ _ _ Hv' Ha), Hprint. }
  destruct (w_report_scalar w _ [OStr "Train accuracy"; OFloat a]) as [e |] eqn:H2;
    simpl; [| done].
  by rewrite (Hsink _ _ _ H2), Hprint.
Qed.

Lemma bind_returns {A B} (m : M A) (k : A -> M B) w s b :
  (exists a, (m w s).1 = Ok a) -> (forall a s', (k a w s').1 = Ok b) ->
  (bind m k w s).1 = Ok b.
Proof.
  intros [a Hm] Hk. unfold bind. destruct (m w s) as [[a' | e] s']; simpl in *; [| done].
  apply Hk.
Qed.

Lemma for_each_returns {A} (xs : list A) (body : A -> M unit) w :
  (forall x s, (body x w s).1 = Ok tt) -> forall s, (for_each xs body w s).1 = Ok tt.
Proof.
  intros Hbody. induction xs as [| x xs IH]; intros s; simpl; [done |].
  apply bind_returns; [by exists tt | intros _ s'; apply IH].
Qed.

(** X2: while the framework and the file system do their part and the
    [print] of the handler succeeds, a sink that fails, on any call and as
    often as it likes, with instances of Exception never makes
    [fit_generator] with the script's callbacks raise: the fit returns. *)
Theorem sink_failures_never_abort_fit w g steps epochs s :
  framework_succeeds w -> sink_fails_softly w -> prints_succeed w ->
  (fit_generator g steps epochs callbacks w s).1 = Ok tt.
Proof.
  intros Hfw Hsink Hprint. unfold fit_generator, fit_begin.
  apply bind_returns.
  { exists tt. unfold foreign_unit. by destruct (Hfw (log s)) as (-> & _). }
  intros _ s1. apply for_each_returns. intros epoch s2. unfold run_epoch.
  apply bind_returns.
  - exists tt. apply for_each_returns. intros batch s3. unfold run_batch, train_batch.
    destruct (Hfw (log s3)) as (_ & _ & logs & Hb & Hlogs).
    unfold bind at 1, foreign. rewrite Hb. simpl.
    apply bind_returns; [exists tt; by apply on_batch_end_returns |].
    intros _ s4. done.
  - intros _ s3. unfold callbacks. simpl. unfold bind at 1. simpl.
    unfold bind, save, foreign_unit.
    destruct (Hfw (log s3)) as (_ & Hsave & _). by rewrite Hsave.
Qed.

Lemma samples_logs_floatable : floatable Samples.logs.
Proof.
  intros key v e Hk Hf. unfold Samples.logs in Hk.
  apply lookup_insert_Some in Hk as [[_ <-] | [_ Hk]]; [done |].
  apply lookup_insert_Some in Hk as [[_ <-] | [_ Hk]]; [done |].
  by rewrite lookup_empty in Hk.
Qed.

(** A sink that raises OSError on every call: the 50 epochs return. *)
Lemma sink_failures_never_abort_fit_witness :
  (fit_generator (Generator "./train/" 40 32) 1 50 callbacks
     (Samples.sink_raises OSError Samples.tiny 40) initial).1 = Ok tt.
Proof.
  apply sink_failures_never_abort_fit.
  - intros h. repeat split. exists Samples.logs. split; [done |].
    apply samples_logs_floatable.
  - intros h args e [= <-]. reflexivity.
  - intros h args. reflexivity.
Defined.

(** ** What reaches the sink *)

Lemma fit_event_report g steps epochs ev : fit_event g steps epochs ev -> report_event ev.
Proof. destruct ev; simpl; try done. by left. Qed.

Lemma no_clock_times l : Forall no_clock l -> times l = [].
Proof.
  intros H. apply omap_nil_Forall. eapply Forall_impl; [exact H |]. by intros [].
Qed.

Lemma fit_event_no_clock g steps epochs ev : fit_event g steps epochs ev -> no_clock ev.
Proof. by destruct ev. Qed.

Lemma fine_tune_event_no_clock ev : fine_tune_event ev -> no_clock ev.
Proof. by destruct ev. Qed.

Lemma ends_with_final_bind {A B} (m : M A) (k : A -> M B) :
  emits no_clock m ->
  (forall a, spec (k a) (fun _ new => ends_with_final new)) ->
  spec (bind m k) (fun _ new => ends_with_final new).
Proof.
  intros Hm Hk.
  eapply spec_weaken; [exact (spec_bind _ _ _ _ Hm Hk) |].
  intros r new [(e & _ & H) | (a & n1 & n2 & -> & H1 & before & after & -> & Hb & Ha)].
  - exists new, []. rewrite app_nil_r. split; [done |]. split; [by apply no_clock_times | done].
  - exists (n1 ++ before)%list, after. rewrite app_assoc. split; [done |].
    split; [| done]. by rewrite times_app, (no_clock_times _ H1), Hb.
Qed.

Lemma save_then_test_emits g steps : emits final_event (save_model ;; final_test g steps).
Proof.
  unfold save_model, final_test, evaluate_generator, save.
  emits_auto; simpl; try done. rewrite percent_d_final. eauto.
Qed.

Ltac no_clock_auto :=
  repeat first
    [ apply emits_compile; intros ? ?
    | eapply emits_weaken;
        [apply fit_generator_emits | intros ?; apply fit_event_no_clock]
    | eapply emits_weaken;
        [apply fine_tune_loop_emits | intros ?; apply fine_tune_event_no_clock]
    | emits_step ];
  simpl; try done.

Lemma main_ends_with_final : spec main (fun _ new => ends_with_final new).
Proof.
  unfold main.
  apply ends_with_final_bind;
    [unfold build_model, InceptionV3, apply_layer; no_clock_auto | intros [base model]].
  apply ends_with_final_bind; [unfold freeze_backbone; no_clock_auto | intros _].
  apply ends_with_final_bind;
    [unfold train_head, make_train_generator, _make_generator, flow_from_directory,
       step_size; no_clock_auto | intros _].
  apply ends_with_final_bind; [unfold print_layers; no_clock_auto | intros _].
  apply ends_with_final_bind; [unfold unfreeze_top; no_clock_auto | intros _].
  unfold fine_tune, make_train_generator, make_test_generator, _make_generator,
    flow_from_directory, step_size.
  apply ends_with_final_bind; [no_clock_auto | intros train].
  apply ends_with_final_bind; [no_clock_auto | intros steps_train].
  apply ends_with_final_bind; [no_clock_auto | intros test].
  apply ends_with_final_bind; [no_clock_auto | intros steps_test].
  apply ends_with_final_bind; [no_clock_auto | intros _].
  eapply spec_weaken; [apply save_then_test_emits |].
  intros r new H. by exists [], new.
Qed.

(** X3: in every world, complete run or not, every call the script
    makes to the sink is one of two shapes: a name, ["Train loss"] or
    ["Train accuracy"], with one float, or the four arguments ["Test loss"],
    a float, ["Test accuracy"], a float.  And nothing is sent once the clock
    of line 130 has been read: the history is a part that reads no clock,
    followed by a part made only of the clock reading, the save of the final
    model, the evaluation of line 132 and the print of line 133.  So the
    result of the final evaluation is printed and never reported. *)
Theorem only_train_and_test_metrics_reported w :
  Forall report_event (log (run w).2) /\
  ends_with_final (log (run w).2).
Proof.
  split.
  - apply (emits_new_events report_event main w initial).
    unfold main, build_model, InceptionV3, apply_layer,
      freeze_backbone, train_head, print_layers, unfreeze_top, fine_tune,
      make_train_generator, make_test_generator, _make_generator, flow_from_directory,
      step_size, fine_tune_loop, fine_tune_step, save_model, final_test,
      evaluate_generator, report_scalar, save.
    repeat first
      [ apply emits_compile; intros ? ?
      | eapply emits_weaken;
          [apply fit_generator_emits | intros ?; apply fit_event_report]
      | emits_step ]; simpl; try done; auto.
  - destruct (main_ends_with_final w initial) as (new & E & H). unfold run.
    by rewrite E.
Qed.

(** ** The final model and the turns before it *)

Lemma make_generator_fail directory w s e :
  w_flow_from_directory w (log s) directory = inl e ->
  _make_generator directory w s = (Raise e, record (flow_event directory (inl e)) s).
Proof.
  intros H. unfold _make_generator, flow_from_directory, bind, foreign.
  by rewrite H.
Qed.

Lemma save_then_test_starts_with_clock g steps :
  spec (save_model ;; final_test g steps) (fun _ new => exists t rest, new = ETime t :: rest).
Proof.
  unfold save_model.
  assert (Hrest : forall t : float,
            spec (ms <- lift (py_int (t * 1000)%float) ;;
                  save (percent_d "tmnt_koopa_%d.h5" ms)) (fun _ _ => True)).
  { intros t. eapply spec_weaken; [| by intros].
    apply (emits_bind (fun _ => True)); [apply emits_lift | intros ms].
    unfold save. by apply emits_foreign_unit. }
  assert (Htest : spec (final_test g steps) (fun _ _ => True)).
  { eapply spec_weaken; [| by intros].
    unfold final_test, evaluate_generator.
    apply (emits_bind (fun _ => True)); [by apply emits_foreign | intros res].
    by apply emits_print. }
  eapply spec_weaken.
  - exact (spec_bind _ _ _ _ (spec_bind _ _ _ _ spec_time Hrest) (fun _ => Htest)).
  - intros r new H.
    destruct H as [(e & _ & [(e' & _ & t & -> & _)
                            | (a & n1 & n2 & -> & (t & -> & _) & _)])
                  | (a & n1 & n2 & -> & [(e' & _ & t & -> & _)
                                        | (a' & m1 & m2 & -> & (t & -> & _) & _)] & _)];
      simpl; eauto.
Qed.

(** X4: the script reads the clock, and so saves the final model, only
    after all ten turns of the fine-tuning loop have completed, each with its
    test report accepted by the sink.  In every world the history of the
    second phase either has no clock reading and no save but to
    [weights.01.hdf5], or consists of the two directory reads, ten complete
    turns, and then the clock reading. *)
Theorem final_model_saved_after_ten_turns w s :
  let new := new_events s (fine_tune w s).2 in
  (times new = [] /\ forall path, path ∈ saves new -> path = "weights.01.hdf5") \/
  (exists n_train n_test rounds t rest,
     new = ([flow_event "./train/" (inr n_train); flow_event "./test/" (inr n_test)]
              ++ concat rounds ++ ETime t :: rest)%list /\
     length rounds = EPOCHS /\
     Forall (round_log (Generator "./train/" n_train 32) (n_train / 32)
               (Generator "./test/" n_test 32) (n_test / 32)) rounds).
Proof.
  intros new.
  assert (E : new_events s (fine_tune w s).2 = new) by reflexivity.
  clearbody new. revert E.
  unfold fine_tune, make_train_generator, make_test_generator.
  unfold bind at 1.
  destruct (w_flow_from_directory w (log s) "./train/") as [e | n1] eqn:H1.
  { rewrite (make_generator_fail _ _ _ _ H1). new_events_leaf. intros <-. left.
    split; [done |]. intros path Hin. by apply elem_of_nil in Hin. }
  rewrite (make_generator_run _ _ _ _ H1).
  unfold bind at 1. rewrite step_size_run.
  unfold bind at 1.
  destruct (w_flow_from_directory w (log (record (flow_event "./train/" (inr n1)) s))
              "./test/") as [e | n2] eqn:H2.
  { rewrite (make_generator_fail _ _ _ _ H2). new_events_leaf. intros <-. left.
    split; [done |]. intros path Hin. by apply elem_of_nil in Hin. }
  rewrite (make_generator_run _ _ _ _ H2).
  unfold bind at 1. rewrite step_size_run.
  set (s2 := record (flow_event "./test/" (inr n2))
               (record (flow_event "./train/" (inr n1)) s)).
  unfold bind at 1.
  destruct (fine_tune_loop (Generator "./train/" n1 32) (n1 / 32)
              (Generator "./test/" n2 32) (n2 / 32) w s2) as [[[] | e] s3] eqn:EL.
  - intros <-. right. apply fine_tune_loop_Ok in EL as (rounds & E3 & Hlen & Hrounds).
    destruct (save_then_test_starts_with_clock (Generator "./test/" n2 32) (n2 / 32) w s3)
      as (new & E & t & rest & ->).
    exists n1, n2, rounds, t, rest. repeat split; try done.
    apply new_events_app. rewrite E, E3. subst s2. simpl.
    by rewrite <- !app_assoc.
  - destruct (spec_run _ _ _ _ _ _
                (fine_tune_loop_emits (Generator "./train/" n1 32) (n1 / 32)
                   (Generator "./test/" n2 32) (n2 / 32)) EL) as (new' & E3 & Hnew).
    simpl. erewrite new_events_app;
      [| rewrite E3; subst s2; simpl; rewrite <- !app_assoc; reflexivity].
    intros <-. left. simpl. split.
    + apply omap_nil_Forall. eapply Forall_impl; [exact Hnew |]. by intros [].
    + intros path Hin. apply list_elem_of_omap in Hin as (ev & Hev & Hp).
      rewrite Forall_forall in Hnew. specialize (Hnew ev Hev).
      destruct ev; simplify_eq. exact Hnew.
Qed.

(** ** Files left behind *)

Lemma checkpoint_ne_final k ms : checkpoint k <> final_path ms.
Proof. unfold checkpoint, final_path. simpl. by intros [=]. Qed.

Lemma head_checkpoints_NoDup :
  NoDup ((fun k => checkpoint (Z.of_nat k + 1)) <$> seq 0 50).
Proof. apply (bool_decide_unpack _). vm_compute. exact I. Qed.

Lemma first_checkpoint_among_head :
  "weights.01.hdf5" ∈ (fun k => checkpoint (Z.of_nat k + 1)) <$> seq 0 50.
Proof. apply (bool_decide_unpack _). vm_compute. exact I. Qed.

Lemma list_to_set_overwrite (paths : list string) (x final : string) n :
  x ∈ paths ->
  (list_to_set (paths ++ replicate n x ++ [final]) : gset string)
  = list_to_set (final :: paths).
Proof.
  intros Hx. apply set_eq. intros y.
  rewrite !elem_of_list_to_set, !elem_of_app, !elem_of_cons, elem_of_nil.
  split.
  - intros [? | [Hy | [-> | []]]]; [by right | | by left].
    apply elem_of_replicate_inv in Hy as ->. by right.
  - intros [-> | ?]; [right; right; by left | by left].
Qed.

(** X5: a run that completes makes 61 saves but leaves 51 files: the 50
    checkpoints of the first phase have pairwise different names, the ten
    checkpoints of the second phase all overwrite the first of them, and the
    final model has a name no checkpoint has. *)
Theorem complete_run_leaves_51_files w s' :
  run w = (Ok tt, s') ->
  length (saves (log s')) = 61%nat /\
  size (files (log s')) = 51%nat /\
  saves (log s') !! 0%nat = Some "weights.01.hdf5" /\
  saves (log s') !! 59%nat = Some "weights.01.hdf5".
Proof.
  intros H. apply run_Ok in H
    as (names & n0 & fl & prints & n1 & n2 & rounds & t & ms & loss & acc
        & _ & E & Hfl & Hprints & Hlen & Hrounds & Hms).
  destruct (fit_log_project _ _ _ _ Hfl) as (S1 & _).
  destruct (prints_project _ Hprints) as (S2 & _).
  destruct (rounds_project _ _ _ _ _ Hrounds) as (S3 & _).
  rewrite Hlen in S3.
  assert (Hsaves : saves (log s')
                   = (((fun k => checkpoint (Z.of_nat k + 1)) <$> seq 0 50)
                        ++ replicate 10 "weights.01.hdf5" ++ [final_path ms])%list).
  { rewrite E, !saves_app, S1, S2, S3. reflexivity. }
  split; [| split; [| split]].
  - rewrite Hsaves, !length_app, length_fmap, length_seq, length_replicate. reflexivity.
  - unfold files. rewrite Hsaves.
    set (cks := (fun k => checkpoint (Z.of_nat k + 1)) <$> seq 0 50).
    rewrite (list_to_set_overwrite cks _ _ _ first_checkpoint_among_head),
      size_list_to_set.
    + reflexivity.
    + constructor; [| apply head_checkpoints_NoDup].
      subst cks. intros (k & Hk & _)%list_elem_of_fmap.
      symmetry in Hk. by apply checkpoint_ne_final in Hk.
  - by rewrite Hsaves.
  - by rewrite Hsaves.
Qed.

Lemma complete_run_leaves_51_files_witness :
  size (files (log (run (Samples.quiet Samples.tiny 40)).2)) = 51%nat.
Proof.
  apply (complete_run_leaves_51_files (Samples.quiet Samples.tiny 40)).
  vm_compute. reflexivity.
Defined.

(** ** The second freeze, from any state *)

Lemma compile_state m opt loss metrics w s :
  exists r, (compile m opt loss metrics w s).2
            = record (ECompile opt loss metrics (trainable_flags m s) r) s.
Proof.
  unfold compile, foreign_unit. exists (w_compile w (log s)).
  by destruct (w_compile w (log s)).
Qed.

Lemma unfreeze_lookup (h : list layer) N i :
  length h = N ->
  foldl (fun h ref => alter (fun l => Layer (kind l) true) ref h)
    (foldl (fun h ref => alter (fun l => Layer (kind l) false) ref h) h
       (take 249 (seq 0 N)))
    (drop 249 (seq 0 N)) !! i
  = (fun l => Layer (kind l) (bool_decide (249 <= i)%nat)) <$> h !! i.
Proof.
  intros Hlen. rewrite !foldl_alter_lookup, take_seq, drop_seq.
  destruct (h !! i) as [l |] eqn:Hl.
  - apply lookup_lt_Some in Hl.
    repeat case_decide;
      repeat match goal with H : context [_ ∈ seq _ _] |- _ => rewrite elem_of_seq in H end;
      simpl; f_equal; f_equal; try done; exfalso; lia.
  - by repeat case_decide.
Qed.

(** X6: [unfreeze_top] overrides whatever the trainable attributes
    were: for a model that owns the layer objects, afterwards the layer of
    index [i] is trainable exactly when [i] is at least 249, no layer has
    changed kind, and the compile reads those attributes.  So a model of at
    most 249 layers is compiled with every layer frozen, head included. *)
Theorem unfreeze_top_overrides model w s :
  m_layers model = seq 0 (length (heap s)) ->
  let s' := (unfreeze_top model w s).2 in
  let flags := (fun i => bool_decide (249 <= i)%nat) <$> seq 0 (length (heap s)) in
  (forall i l, heap s' !! i = Some l -> trainable l = bool_decide (249 <= i)%nat) /\
  kind <$> heap s' = kind <$> heap s /\
  (exists r, new_events s s'
             = [ECompile (SGD 0.0001 0.9) "categorical_crossentropy"
                         ["categorical_accuracy"] flags r]) /\
  ((length (heap s) <= 249)%nat -> flags = replicate (length (heap s)) false).
Proof.
  intros Hm s' flags.
  set (h' := foldl (fun h ref => alter (fun l => Layer (kind l) true) ref h)
               (foldl (fun h ref => alter (fun l => Layer (kind l) false) ref h) (heap s)
                  (take 249 (seq 0 (length (heap s)))))
               (drop 249 (seq 0 (length (heap s))))).
  assert (Hs' : exists r, s' = record (ECompile (SGD 0.0001 0.9) "categorical_crossentropy"
                                         ["categorical_accuracy"] flags r)
                                  (State h' (log s))).
  { subst s'. unfold unfreeze_top. rewrite Hm.
    unfold bind at 1. rewrite set_trainable_effect. cbv beta iota.
    unfold bind at 1. rewrite set_trainable_effect. cbv beta iota.
    cbn [heap log]. fold h'.
    destruct (compile_state model (SGD 0.0001 0.9) "categorical_crossentropy"
                ["categorical_accuracy"] w (State h' (log s))) as (r & ->).
    exists r. f_equal. f_equal. unfold trainable_flags. rewrite Hm. simpl.
    apply omap_ext_fmap. intros i Hi%elem_of_seq. subst h'.
    rewrite unfreeze_lookup by done.
    destruct (lookup_lt_is_Some_2 (heap s) i) as [l ->]; [lia | done]. }
  destruct Hs' as (r & Hs'). clearbody s'. subst s'. simpl.
  split; [| split; [| split]].
  - intros i l. subst h'. rewrite unfreeze_lookup by done.
    destruct (heap s !! i); [| done]. by intros [= <-].
  - apply list_eq. intros i. rewrite !list_lookup_fmap. subst h'.
    rewrite unfreeze_lookup by done. by destruct (heap s !! i).
  - exists r. by apply new_events_app.
  - intros Hle. subst flags. apply list_eq. intros i.
    rewrite list_lookup_fmap.
    destruct (decide (i < length (heap s))%nat) as [Hi | Hi].
    + rewrite lookup_seq_lt, lookup_replicate_2 by done. simpl. f_equal.
      apply bool_decide_eq_false. lia.
    + rewrite lookup_seq_ge by lia. simpl. symmetry.
      apply lookup_replicate_None. lia.
Qed.

(** The four-layer sample backbone with its head: nine layers, all frozen. *)
Lemma unfreeze_top_overrides_witness :
  exists r,
    new_events Samples.built
      (unfreeze_top Samples.tiny_model (Samples.quiet Samples.tiny 40) Samples.built).2
    = [ECompile (SGD 0.0001 0.9) "categorical_crossentropy" ["categorical_accuracy"]
                (replicate 9 false) r].
Proof.
  apply (unfreeze_top_overrides Samples.tiny_model (Samples.quiet Samples.tiny 40)
           Samples.built).
  reflexivity.
Defined.

(** The sample state and model are what lines 18-33 build. *)
Example samples_built_by_build_model :
  let res := build_model (Samples.quiet Samples.tiny 40) initial in
  heap res.2 = heap Samples.built /\
  exists base, res.1 = Ok (base, Samples.tiny_model).
Proof. split; [reflexivity |]. by eexists. Qed.

(** ** The printed layer list *)

Lemma for_each_print_lines (ps : list (nat * nat)) w s s' :
  for_each ps (fun p => name <- get_name (snd p) ;;
                        print [OInt (Z.of_nat (fst p)); OStr name]) w s
  = (Ok tt, s') ->
  s' = State (heap s)
         (log s ++ ((fun p => EPrint [OInt (Z.of_nat p.1);
                                      OStr (from_option layer_name "" (heap s !! p.2))]
                                     None)
                      <$> ps))%list.
Proof.
  revert s. induction ps as [| p ps IH]; intros s; simpl.
  - unfold ret. intros [= <-]. by rewrite app_nil_r; destruct s.
  - intros H. apply bind_Ok in H as ([] & s1 & H1 & H).
    apply bind_Ok in H1 as (name & s0 & Hn & H1).
    unfold get_name in Hn. injection Hn as <- <-.
    apply print_Ok in H1 as ->.
    apply IH in H as ->. simpl. by rewrite <- app_assoc.
Qed.

Lemma omap_fmap_Some {X Y Z'} (g : X -> Y) (f : Y -> option Z') (h : X -> Z') (l : list X) :
  (forall x, f (g x) = Some (h x)) -> omap f (g <$> l) = h <$> l.
Proof.
  intros H. induction l as [| x l IH]; [done |]. csimpl. rewrite H. csimpl. by f_equal.
Qed.

Lemma layer_prints_app l1 l2 :
  layer_prints (l1 ++ l2) = (layer_prints l1 ++ layer_prints l2)%list.
Proof. apply omap_app. Qed.

Lemma batches_no_layer_prints batches :
  Forall batch_event batches -> layer_prints batches = [].
Proof.
  intros H. apply omap_nil_Forall. eapply Forall_impl; [exact H |].
  intros [] Hev; try done. simpl in *.
  destruct args as [| [] [| ? ?]]; try done.
Qed.

Lemma fit_log_no_layer_prints g steps epochs l :
  fit_log g steps epochs l -> layer_prints l = [].
Proof.
  intros (els & -> & Hels). simpl.
  induction Hels as [| k el xs els (batches & Hb & ->) _ IH]; [done |].
  simpl. by rewrite !layer_prints_app, (batches_no_layer_prints _ Hb), IH.
Qed.

Lemma rounds_no_layer_prints tg st testg stt rounds :
  Forall (round_log tg st testg stt) rounds -> layer_prints (concat rounds) = [].
Proof.
  induction 1 as [| l rounds (fl & loss & acc & Hfl & ->) _ IH]; [done |].
  simpl. by rewrite !layer_prints_app, (fit_log_no_layer_prints _ _ _ _ Hfl), IH.
Qed.

(** X7: in a run that completes, the loop of lines 92-93 prints one line
    per backbone layer and none for the head: line [i] carries the index [i]
    and the name of the [i]-th layer the framework built, which is also the
    [i]-th layer of the model that line 97 slices. *)
Theorem printed_indices_are_model_indices w s' :
  run w = (Ok tt, s') ->
  exists names,
    w_InceptionV3 w [] = inr names /\
    layer_prints (log s') = imap (fun i name => (Z.of_nat i, name)) names.
Proof.
  unfold run, main. intros H.
  apply bind_Ok in H as ([base model] & s1 & H1 & H).
  apply build_model_Ok in H1 as (names & Hnames & Hheap1 & Hlog1 & -> & ->).
  simpl in Hnames, Hheap1, Hlog1.
  apply bind_Ok in H as ([] & s2 & H2 & H).
  unfold freeze_backbone, m_layers in H2. simpl in H2.
  apply bind_Ok in H2 as ([] & s1' & Hf & H2).
  rewrite set_trainable_effect in Hf. injection Hf as <-.
  unfold compile in H2. apply foreign_unit_Ok in H2 as [_ ->].
  apply bind_Ok in H as ([] & s3 & H3 & H).
  apply train_head_Ok in H3 as (n0 & fl & E3 & Hfl & Hh3).
  apply bind_Ok in H as ([] & s4 & H4 & H).
  unfold print_layers, m_layers in H4. simpl in H4.
  apply for_each_print_lines in H4 as ->.
  apply bind_Ok in H as ([] & s5 & H5 & H).
  unfold unfreeze_top in H5.
  apply bind_Ok in H5 as ([] & s4' & Hf1 & H5).
  rewrite set_trainable_effect in Hf1. injection Hf1 as <-.
  apply bind_Ok in H5 as ([] & s4'' & Hf2 & H5).
  rewrite set_trainable_effect in Hf2. injection Hf2 as <-.
  unfold compile in H5. apply foreign_unit_Ok in H5 as [_ ->].
  apply fine_tune_Ok in H
    as (n1 & n2 & rounds & t & ms & loss & acc & E & Hlen & Hrounds & Hms).
  exists names. split; [done |].
  unfold record in *. cbn [log heap] in *.
  rewrite E, E3, Hlog1.
  unfold layer_prints. rewrite ?omap_app. csimpl. rewrite ?omap_app. csimpl.
  fold (layer_prints fl). fold (layer_prints (concat rounds)).
  rewrite (fit_log_no_layer_prints _ _ _ _ Hfl),
    (rounds_no_layer_prints _ _ _ _ _ Hrounds). csimpl.
  rewrite !app_nil_r.
  rewrite (omap_fmap_Some _ _
             (fun p : nat * nat =>
                (Z.of_nat p.1, from_option layer_name "" (heap s3 !! p.2)))) by done.
  rewrite fmap_imap. apply list_eq. intros i. rewrite !list_lookup_imap.
  destruct (names !! i) as [name |] eqn:Hi.
  - pose proof (lookup_lt_Some _ _ _ Hi) as Hlt.
    rewrite lookup_seq_lt by done. simpl. f_equal. f_equal.
    rewrite Hh3, foldl_alter_lookup, Hheap1.
    rewrite list_lookup_fmap, lookup_app_l by (by rewrite length_fmap).
    rewrite list_lookup_fmap, Hi. simpl. by case_decide.
  - apply lookup_ge_None in Hi. by rewrite lookup_seq_ge.
Qed.

Lemma printed_indices_are_model_indices_witness :
  layer_prints (log (run (Samples.quiet Samples.tiny 40)).2)
  = [(0, "input_1"); (1, "conv2d_1"); (2, "conv2d_2"); (3, "mixed10")].
Proof.
  destruct (printed_indices_are_model_indices (Samples.quiet Samples.tiny 40)
              (run (Samples.quiet Samples.tiny 40)).2) as (names & Hn & E).
  - vm_compute. reflexivity.
  - injection Hn as <-. exact E.
Defined.

(** ** The name of the final model *)

Lemma string_length_app (a b : string) :
  String.length (a +:+ b) = (String.length a + String.length b)%nat.
Proof. induction a as [| c a IH]; simpl; [done | by rewrite IH]. Qed.

Lemma string_app_inj_r (a b c : string) : a +:+ c = b +:+ c -> a = b.
Proof.
  revert b. induction a as [| x a IH]; intros [| y b] H.
  - done.
  - apply (f_equal String.length) in H. rewrite !string_length_app in H.
    simpl in H. lia.
  - apply (f_equal String.length) in H. rewrite !string_length_app in H.
    simpl in H. lia.
  - injection H as -> H. f_equal. by apply IH.
Qed.

Lemma to_int_norm z : Decimal.norm (Z.to_int z) = Z.to_int z.
Proof. by rewrite <- DecimalZ.to_of, DecimalZ.of_to. Qed.

Lemma to_int_nonnil z : Z.to_int z <> Decimal.Pos Decimal.Nil /\ Z.to_int z <> Decimal.Neg Decimal.Nil.
Proof.
  rewrite <- (to_int_norm z). destruct (Z.to_int z) as [u | u]; simpl.
  - split; [| done]. intros [= H]. by apply DecimalFacts.unorm_nonnil in H.
  - destruct (Decimal.nzhead u) eqn:E; by split.
Qed.

Lemma str_of_int_inj z1 z2 : str_of_int z1 = str_of_int z2 -> z1 = z2.
Proof.
  unfold str_of_int. intros H. apply DecimalZ.to_int_inj.
  destruct (to_int_nonnil z1) as [P1 N1]. destruct (to_int_nonnil z2) as [P2 N2].
  pose proof (NilZero.isi _ P1 N1) as H1. pose proof (NilZero.isi _ P2 N2) as H2.
  rewrite H in H1. congruence.
Qed.

(** X8: the name of the final model determines the millisecond it was
    saved at: two different clock readings, in milliseconds, never give the
    same file name, so a later run does not overwrite the model of an earlier
    one, unlike the checkpoints. *)
Theorem final_path_distinguishes_milliseconds ms1 ms2 :
  ms1 <> ms2 ->
  percent_d "tmnt_koopa_%d.h5" ms1 <> percent_d "tmnt_koopa_%d.h5" ms2.
Proof.
  intros Hne H. apply Hne. rewrite !percent_d_final in H. unfold final_path in H.
  apply (inj (String.app "tmnt_koopa_")) in H.
  by apply string_app_inj_r, str_of_int_inj in H.
Qed.

Lemma final_path_distinguishes_milliseconds_witness :
  percent_d "tmnt_koopa_%d.h5" 1730000000500 <> percent_d "tmnt_koopa_%d.h5" 1730000000501.
Proof. apply final_path_distinguishes_milliseconds. lia. Defined.


(** ** The second phase starts after the first is over *)

Lemma emits_preserves {A} (Q : event -> Prop) (m : M A) w s :
  emits Q m -> Forall Q (log s) -> Forall Q (log (m w s).2).
Proof.
  intros Hm Hs. destruct (Hm w s) as (new & -> & Hnew). by apply Forall_app.
Qed.

Lemma fit_event_before_fine_tuning g steps epochs ev :
  fit_event g steps epochs ev -> before_fine_tuning ev.
Proof. by destruct ev. Qed.

Lemma fit_log_before_fine_tuning g steps epochs l :
  fit_log g steps epochs l -> Forall before_fine_tuning l.
Proof.
  intros (els & -> & Hels). constructor; [done |].
  induction Hels as [| k el xs els (batches & Hb & ->) _ IH]; simpl; [done |].
  apply Forall_app. split; [| exact IH].
  apply Forall_app. split; [| by constructor].
  eapply Forall_impl; [exact Hb |]. by intros [].
Qed.

Lemma build_model_before_fine_tuning : emits before_fine_tuning build_model.
Proof. unfold build_model, InceptionV3, apply_layer. emits_auto; done. Qed.

Lemma freeze_backbone_before_fine_tuning base model :
  emits before_fine_tuning (freeze_backbone base model).
Proof.
  unfold freeze_backbone.
  repeat first [apply emits_compile; intros ? ? | emits_step]; done.
Qed.

Lemma train_head_before_fine_tuning : emits before_fine_tuning train_head.
Proof.
  unfold train_head, make_train_generator, _make_generator, flow_from_directory, step_size.
  repeat first
    [ eapply emits_weaken;
        [apply fit_generator_emits | intros ?; apply fit_event_before_fine_tuning]
    | emits_step ]; done.
Qed.

Lemma second_phase_appends base model :
  emits (fun _ => True) (print_layers base ;; unfreeze_top model ;; fine_tune).
Proof.
  unfold print_layers, unfreeze_top, fine_tune,
    make_train_generator, make_test_generator, _make_generator, flow_from_directory,
    step_size, fine_tune_loop, fine_tune_step, save_model, final_test,
    evaluate_generator, report_scalar, save.
  repeat first
    [ apply emits_compile; intros ? ?
    | eapply emits_weaken; [apply fit_generator_emits | done]
    | emits_step ]; done.
Qed.

(** X9: the backbone is unfrozen only after the head has been trained
    for all 50 epochs.  In every world, either the script never reaches the
    compile with SGD, or the history before that compile holds a complete
    first phase: a fit on [./train/] of 50 epochs, every one of them with its
    checkpoint saved. *)
Theorem fine_tuning_starts_after_head_training w :
  Forall before_fine_tuning (log (run w).2) \/
  exists pre n fl rest,
    log (run w).2 = (pre ++ fl ++ rest)%list /\
    Forall before_fine_tuning (pre ++ fl)%list /\
    fit_log (Generator "./train/" n 32) (n / 32) 50 fl.
Proof.
  remember (run w) as res eqn:Hres. unfold run, main in Hres.
  unfold bind at 1 in Hres.
  pose proof (emits_preserves _ _ w initial build_model_before_fine_tuning
                (Forall_nil_2 _)) as P1.
  destruct (build_model w initial) as [[[base model] | e] s1] eqn:E1;
    [| subst res; by left].
  simpl in P1. cbv beta iota in Hres. unfold bind at 1 in Hres.
  pose proof (emits_preserves _ _ w s1 (freeze_backbone_before_fine_tuning base model) P1)
    as P2.
  destruct (freeze_backbone base model w s1) as [[[] | e] s2] eqn:E2;
    [| subst res; by left].
  simpl in P2. cbv beta iota in Hres. unfold bind at 1 in Hres.
  pose proof (emits_preserves _ _ w s2 train_head_before_fine_tuning P2) as P3.
  destruct (train_head w s2) as [[[] | e] s3] eqn:E3; [| subst res; by left].
  cbv beta iota in Hres. subst res. right.
  apply train_head_Ok in E3 as (n & fl & E3 & Hfl & _).
  destruct (second_phase_appends base model w s3) as (rest & E & _).
  exists (log s2 ++ [flow_event "./train/" (inr n)])%list, n, fl, rest.
  split; [| split; [| done]].
  - rewrite E, E3. by rewrite <- !app_assoc.
  - apply Forall_app. split; [| by eapply fit_log_before_fine_tuning].
    apply Forall_app. split; [done | by constructor].
Qed.


(** ** Counting the reports of a fit *)

Lemma reports_app l1 l2 : reports (l1 ++ l2) = (reports l1 ++ reports l2)%list.
Proof. apply omap_app. Qed.

Lemma sends_bind {A B} j k (m : M A) (f : A -> M B) w :
  sends j m w -> (forall a, sends k (f a) w) -> sends (j + k) (bind m f) w.
Proof.
  intros Hm Hf s. unfold bind.
  destruct (Hm s) as (a & n1 & Ha & E1 & L1).
  destruct (m w s) as [[a' | e] s1]; simpl in *; [| done]. injection Ha as ->.
  destruct (Hf a s1) as (b & n2 & Hb & E2 & L2).
  exists b, (n1 ++ n2)%list. repeat split; [done | |].
  - by rewrite E2, E1, app_assoc.
  - by rewrite reports_app, length_app, L1, L2.
Qed.

Lemma sends_ret {A} (a : A) w : sends 0 (ret a) w.
Proof. intros s. exists a, []. simpl. by rewrite app_nil_r. Qed.

Lemma sends_for_each {A} k (xs : list A) (body : A -> M unit) w :
  (forall x, sends k (body x) w) -> sends (length xs * k) (for_each xs body) w.
Proof.
  intros Hbody. induction xs as [| x xs IH]; simpl; [apply sends_ret |].
  apply sends_bind; [apply Hbody | by intros _].
Qed.

Lemma sends_on_batch_end batch logs w vl l va a :
  (forall h args, w_report_scalar w h args = None) ->
  logs !! "loss" = Some vl -> py_float vl = inr l ->
  logs !! "categorical_accuracy" = Some va -> py_float va = inr a ->
  sends 2 (on_batch_end batch logs) w.
Proof.
  intros Hsink Hl Hfl Ha Hfa s. exists tt.
  exists [EReport [OStr "Train loss"; OFloat l] None;
          EReport [OStr "Train accuracy"; OFloat a] None].
  cbv beta iota delta [on_batch_end try_except_Exception bind lift lift_unit ret raise
                       report_scalar foreign_unit getitem print].
  rewrite Hl. simpl. rewrite Hfl. simpl. rewrite Hsink. simpl.
  rewrite Ha. simpl. rewrite Hfa. simpl. rewrite Hsink. simpl.
  repeat split. by rewrite <- app_assoc.
Qed.

(** X10: in a world where nothing fails and the logs of every batch hold
    both metrics, a fit with the script's callbacks returns having made
    exactly two calls to the sink per batch: [epochs] times the number of
    steps times 2, and none for a step count that is zero or negative. *)
Theorem fit_sends_two_reports_per_batch w g steps epochs s :
  healthy w ->
  let res := fit_generator g steps epochs callbacks w s in
  res.1 = Ok tt /\
  length (reports (new_events s res.2)) = (epochs * (Z.to_nat steps * 2))%nat.
Proof.
  intros Hw.
  assert (H : sends (0 + length (seq 0 epochs) * (length (seq 0 (Z.to_nat steps)) * 2 + 0))
                (fit_generator g steps epochs callbacks) w).
  { unfold fit_generator, fit_begin. apply sends_bind.
    - intros s1. exists tt, [EFit g steps epochs None].
      unfold foreign_unit. destruct (Hw (log s1)) as (-> & _). by simpl.
    - intros _. apply sends_for_each. intros epoch. unfold run_epoch.
      apply sends_bind.
      + apply sends_for_each. intros batch s1. unfold run_batch, train_batch.
        destruct (Hw (log s1)) as (_ & _ & _ & logs & vl & l & va & a & Hb & Hl & Hfl & Ha & Hfa).
        assert (Hsink : forall h args, w_report_scalar w h args = None)
          by (intros h args; by destruct (Hw h) as (_ & _ & Hs & _)).
        assert (Hcb : sends (2 + 0)
                        (for_each callbacks (fun cb => cb_on_batch_end cb batch logs)) w).
        { unfold callbacks. cbn [for_each]. apply (sends_bind 2 0).
          - exact (sends_on_batch_end batch logs w vl l va a Hsink Hl Hfl Ha Hfa).
          - intros _. apply (sends_bind 0 0); [apply sends_ret | intros _; apply sends_ret]. }
        destruct (Hcb (record (EBatch (inr logs)) s1)) as (u & new & Hu & E & L).
        assert (Eq : (logs0 <- foreign w_batch EBatch ;;
                      for_each callbacks (fun cb => cb_on_batch_end cb batch logs0))%prog w s1
                     = for_each callbacks (fun cb => cb_on_batch_end cb batch logs) w
                         (record (EBatch (inr logs)) s1))
          by (unfold bind at 1, foreign; by rewrite Hb).
        exists u, (EBatch (inr logs) :: new). rewrite Eq.
        repeat split; [done | | done].
        rewrite E. simpl. by rewrite <- app_assoc.
      + intros _. unfold callbacks. cbn [for_each]. apply (sends_bind 0 0).
        * apply sends_ret.
        * intros _. apply (sends_bind 0 0); [| intros _; apply sends_ret].
          intros s1. destruct (Hw (log s1)) as (_ & Hsave & _).
          exists tt, [ESave (format_epoch "weights.{epoch:02d}.hdf5" (Z.of_nat epoch + 1)) None].
          cbn [cb_on_epoch_end ModelCheckpoint]. unfold save, foreign_unit.
          rewrite Hsave. by simpl. }
  destruct (H s) as ([] & new & Hok & E & L). simpl. split; [done |].
  rewrite (new_events_app _ _ _ E), L, !length_seq. lia.
Qed.

Lemma quiet_is_healthy names n : healthy (Samples.quiet names n).
Proof.
  intros h. repeat split.
  exists Samples.logs, (VFloat 0.5), 0.5%float, (VFloat 0.75), 0.75%float.
  by repeat split.
Qed.

(** Fifty epochs of two steps: two hundred reports. *)
Lemma fit_sends_two_reports_per_batch_witness :
  let w := Samples.quiet Samples.tiny 64 in
  let res := fit_generator (Generator "./train/" 64 32) 2 50 callbacks w initial in
  healthy w /\ res.1 = Ok tt /\
  length (reports (new_events initial res.2)) = (50 * (Z.to_nat 2 * 2))%nat.
Proof.
  split; [apply quiet_is_healthy |].
  apply (fit_sends_two_reports_per_batch (Samples.quiet Samples.tiny 64)
           (Generator "./train/" 64 32) 2 50 initial).
  apply quiet_is_healthy.
Defined.
